(** * Sub-block value hook and toolbar search of the workflow builder

    A shallow embedding of
    - [use-sub-block-value.ts]: the hook [useSubBlockValue] with its helpers
      [handleProviderBasedApiKey], [handleStandardBlockApiKey] and
      [storeApiKeyValue];
    - the toolbar component [Toolbar] and its memoised block list.

    JavaScript values are modelled as trees whose arrays and objects carry
    the identity of the object they stand for, so that [===] on objects,
    the aliasing between the caller's object and the hook's cache, and the
    fresh objects made by [JSON.parse] can be told apart.  Strings are
    sequences of UTF-16 code units below 256, one [ascii] per unit. *)

From Stdlib Require Import ZArith NArith Bool Ascii String DecimalString.
From stdpp Require Import gmap strings list.

#[local] Set Warnings "-register-all".

Local Open Scope string_scope.

(** ** Strings *)

Module Str.

(** WhiteSpace and LineTerminator code units of ECMAScript below 256:
    TAB, LF, VT, FF, CR, SP and NBSP.  These are what [trim] strips. *)
Definition isWhiteSpace (c : ascii) : bool :=
  let n := N_of_ascii c in
  ((9 <=? n) && (n <=? 13) || (n =? 32) || (n =? 160))%N.

(** [String.prototype.trimStart] *)
Fixpoint trimStart (s : string) : string :=
  match s with
  | EmptyString => EmptyString
  | String c s' => if isWhiteSpace c then trimStart s' else s
  end.

(** [String.prototype.trimEnd] *)
Fixpoint trimEnd (s : string) : string :=
  match s with
  | EmptyString => EmptyString
  | String c s' =>
      match trimEnd s' with
      | EmptyString => if isWhiteSpace c then EmptyString else String c EmptyString
      | t => String c t
      end
  end.

(** [String.prototype.trim] *)
Definition trim (s : string) : string := trimEnd (trimStart s).

(** Lower-casing of one code unit: A-Z and the Latin-1 capitals
    U+00C0..U+00DE (U+00D7, the multiplication sign, apart) move up by 32. *)
Definition lowerUnit (c : ascii) : ascii :=
  let n := N_of_ascii c in
  if ((65 <=? n) && (n <=? 90) || (192 <=? n) && (n <=? 222) && negb (n =? 215))%N
  then ascii_of_N (n + 32)
  else c.

(** [String.prototype.toLowerCase] *)
Fixpoint toLowerCase (s : string) : string :=
  match s with
  | EmptyString => EmptyString
  | String c s' => String (lowerUnit c) (toLowerCase s')
  end.

(** [s.startsWith(p)] *)
Fixpoint startsWith (s p : string) {struct p} : bool :=
  match p, s with
  | EmptyString, _ => true
  | String _ _, EmptyString => false
  | String a p', String b s' => Ascii.eqb a b && startsWith s' p'
  end.

(** [s.includes(q)]: [q] occurs at some position of [s]. *)
Fixpoint includes (s q : string) : bool :=
  startsWith s q ||
  match s with
  | EmptyString => false
  | String _ s' => includes s' q
  end.

(** [s.endsWith(p)]: the last [length p] code units of [s] are [p]. *)
Definition endsWith (s p : string) : bool :=
  let n := String.length s in
  let k := String.length p in
  Nat.leb k n && String.eqb (substring (n - k) k s) p.

(** Only whitespace code units. *)
Fixpoint allWhiteSpace (s : string) : bool :=
  match s with
  | EmptyString => true
  | String c s' => isWhiteSpace c && allWhiteSpace s'
  end.

End Str.

(** ** JavaScript values *)

(** A number: the two non-finite kinds are kept apart because [JSON.stringify]
    and [!] treat them specially; finite numbers are the integers. *)
Inductive number : Type :=
| NaN
| Infinity (negative : bool)
| Finite (z : Z).

(** The identity of an array or object (its address). *)
Definition ref : Type := N.
Bind Scope N_scope with ref.

(** A value as the hook sees it.  [VArray r xs] and [VObject r ps] are the
    array and the plain object living at [r]; [ps] lists the own enumerable
    properties in enumeration order. *)
Inductive JsValue : Type :=
| VUndefined
| VNull
| VBoolean (b : bool)
| VNumber (n : number)
| VString (s : string)
| VArray (r : ref) (items : list JsValue)
| VObject (r : ref) (props : list (string * JsValue)).

(** Induction on values that reaches inside arrays and objects. *)
Section JsValueInd.

Variable P : JsValue -> Prop.
Hypothesis HUndefined : P VUndefined.
Hypothesis HNull : P VNull.
Hypothesis HBoolean : forall b, P (VBoolean b).
Hypothesis HNumber : forall n, P (VNumber n).
Hypothesis HString : forall s, P (VString s).
Hypothesis HArray : forall r xs, Forall P xs -> P (VArray r xs).
Hypothesis HObject : forall r ps, Forall (fun kx => P (snd kx)) ps -> P (VObject r ps).

Fixpoint JsValue_nested_ind (v : JsValue) : P v :=
  match v with
  | VUndefined => HUndefined
  | VNull => HNull
  | VBoolean b => HBoolean b
  | VNumber n => HNumber n
  | VString s => HString s
  | VArray r xs =>
      HArray r xs
        ((fix items (xs : list JsValue) : Forall P xs :=
            match xs with
            | [] => @List.Forall_nil _ P
            | x :: xs' => @List.Forall_cons _ P x xs' (JsValue_nested_ind x) (items xs')
            end) xs)
  | VObject r ps =>
      HObject r ps
        ((fix props (ps : list (string * JsValue)) : Forall (fun kx => P (snd kx)) ps :=
            match ps with
            | [] => @List.Forall_nil _ (fun kx => P (snd kx))
            | (k, x) :: ps' =>
                @List.Forall_cons _ (fun kx => P (snd kx)) (k, x) ps'
                  (JsValue_nested_ind x) (props ps')
            end) ps)
  end.

End JsValueInd.

(** [!!v] *)
Definition truthy (v : JsValue) : bool :=
  match v with
  | VUndefined | VNull => false
  | VBoolean b => b
  | VNumber NaN => false
  | VNumber (Infinity _) => true
  | VNumber (Finite z) => negb (z =? 0)%Z
  | VString s => negb (String.eqb s "")
  | VArray _ _ | VObject _ _ => true
  end.

(** [typeof v === 'object'] *)
Definition typeofObject (v : JsValue) : bool :=
  match v with
  | VNull | VArray _ _ | VObject _ _ => true
  | _ => false
  end.

(** [a === b]: primitives by value ([NaN] differs from itself), arrays and
    objects by identity. *)
Definition strictEq (a b : JsValue) : bool :=
  match a, b with
  | VUndefined, VUndefined => true
  | VNull, VNull => true
  | VBoolean x, VBoolean y => Bool.eqb x y
  | VNumber (Finite x), VNumber (Finite y) => (x =? y)%Z
  | VNumber (Infinity x), VNumber (Infinity y) => Bool.eqb x y
  | VString x, VString y => String.eqb x y
  | VArray r _, VArray r' _ => (r =? r')%N
  | VObject r _, VObject r' _ => (r =? r')%N
  | _, _ => false
  end.

(** [obj[k]] on the own properties: the first entry for [k]. *)
Fixpoint getProp (k : string) (ps : list (string * JsValue)) : option JsValue :=
  match ps with
  | [] => None
  | (k', v) :: ps' => if String.eqb k k' then Some v else getProp k ps'
  end.

(** [isEqual] of lodash on these values: identical values are equal, two
    [NaN] are equal, two arrays are equal when they have the same length and
    equal items, two plain objects when they have the same number of keys
    and every key of the first is a key of the second with an equal value;
    anything else differs. *)
Fixpoint isEqual (a b : JsValue) {struct a} : bool :=
  strictEq a b ||
  match a, b with
  | VNumber NaN, VNumber NaN => true
  | VArray _ xs, VArray _ ys =>
      (fix items (xs ys : list JsValue) {struct xs} : bool :=
         match xs, ys with
         | [], [] => true
         | x :: xs', y :: ys' => isEqual x y && items xs' ys'
         | _, _ => false
         end) xs ys
  | VObject _ ps, VObject _ qs =>
      Nat.eqb (length ps) (length qs) &&
      (fix props (ps : list (string * JsValue)) {struct ps} : bool :=
         match ps with
         | [] => true
         | (k, x) :: ps' =>
             match getProp k qs with
             | Some y => isEqual x y
             | None => false
             end && props ps'
         end) ps
  | _, _ => false
  end.

(** The two loops of [isEqual] by name. *)
Fixpoint isEqualItems (xs ys : list JsValue) {struct xs} : bool :=
  match xs, ys with
  | [], [] => true
  | x :: xs', y :: ys' => isEqual x y && isEqualItems xs' ys'
  | _, _ => false
  end.

Fixpoint isEqualProps (qs ps : list (string * JsValue)) {struct ps} : bool :=
  match ps with
  | [] => true
  | (k, x) :: ps' =>
      match getProp k qs with
      | Some y => isEqual x y
      | None => false
      end && isEqualProps qs ps'
  end.

(** [String(v)]: arrays join the strings of their items with a comma, [null]
    and [undefined] items giving the empty string; a plain object gives
    [[object Object]]. *)
Fixpoint toString (v : JsValue) : string :=
  match v with
  | VUndefined => "undefined"
  | VNull => "null"
  | VBoolean true => "true"
  | VBoolean false => "false"
  | VNumber NaN => "NaN"
  | VNumber (Infinity true) => "-Infinity"
  | VNumber (Infinity false) => "Infinity"
  | VNumber (Finite z) => NilZero.string_of_int (Z.to_int z)
  | VString s => s
  | VArray _ xs =>
      (fix join (xs : list JsValue) {struct xs} : string :=
         match xs with
         | [] => ""
         | x :: xs' =>
             let sx := match x with VUndefined | VNull => "" | _ => toString x end in
             match xs' with
             | [] => sx
             | _ :: _ => sx +:+ "," +:+ join xs'
             end
         end) xs
  | VObject _ _ => "[object Object]"
  end.

(** [JSON.parse(JSON.stringify(v))] as a copy: [None] is [undefined] (the
    property is left out of an object and becomes [null] in an array),
    non-finite numbers become [null], and every array and object is a new one,
    taken from the allocator [next]. *)
Fixpoint jsonCopy (v : JsValue) (next : ref) {struct v} : option JsValue * ref :=
  match v with
  | VUndefined => (None, next)
  | VNull => (Some VNull, next)
  | VBoolean _ => (Some v, next)
  | VNumber (Finite _) => (Some v, next)
  | VNumber _ => (Some VNull, next)
  | VString _ => (Some v, next)
  | VArray _ xs =>
      let '(xs', next') :=
        (fix items (xs : list JsValue) (n : ref) {struct xs} : list JsValue * ref :=
           match xs with
           | [] => ([], n)
           | x :: xs' =>
               let '(ox, n1) := jsonCopy x n in
               let '(r, n2) := items xs' n1 in
               (default VNull ox :: r, n2)
           end) xs (next + 1)%N in
      (Some (VArray next xs'), next')
  | VObject _ ps =>
      let '(ps', next') :=
        (fix props (ps : list (string * JsValue)) (n : ref) {struct ps}
           : list (string * JsValue) * ref :=
           match ps with
           | [] => ([], n)
           | (k, x) :: ps' =>
               let '(ox, n1) := jsonCopy x n in
               let '(r, n2) := props ps' n1 in
               (match ox with Some x' => (k, x') :: r | None => r end, n2)
           end) ps (next + 1)%N in
      (Some (VObject next ps'), next')
  end.

(** The two loops of [jsonCopy] by name. *)
Fixpoint jsonCopyItems (xs : list JsValue) (n : ref) {struct xs} : list JsValue * ref :=
  match xs with
  | [] => ([], n)
  | x :: xs' =>
      let '(ox, n1) := jsonCopy x n in
      let '(r, n2) := jsonCopyItems xs' n1 in
      (default VNull ox :: r, n2)
  end.

Fixpoint jsonCopyProps (ps : list (string * JsValue)) (n : ref) {struct ps}
    : list (string * JsValue) * ref :=
  match ps with
  | [] => ([], n)
  | (k, x) :: ps' =>
      let '(ox, n1) := jsonCopy x n in
      let '(r, n2) := jsonCopyProps ps' n1 in
      (match ox with Some x' => (k, x') :: r | None => r end, n2)
  end.

(** The identities of all the arrays and objects inside [v], [v] included. *)
Fixpoint identities (v : JsValue) {struct v} : list ref :=
  match v with
  | VArray r xs =>
      r :: (fix items (xs : list JsValue) : list ref :=
              match xs with
              | [] => []
              | x :: xs' => (identities x ++ items xs')%list
              end) xs
  | VObject r ps =>
      r :: (fix props (ps : list (string * JsValue)) : list ref :=
              match ps with
              | [] => []
              | (_, x) :: ps' => (identities x ++ props ps')%list
              end) ps
  | _ => []
  end.

(** [v] was allocated before [n]: every identity inside it is below [n]. *)
Definition allocatedBelow (n : ref) (v : JsValue) : Prop :=
  Forall (fun a => (a < n)%N) (identities v).

(** [v] was allocated from [n] on and before [n']: every identity inside it
    lies in between. *)
Definition freshBetween (n n' : ref) (v : JsValue) : Prop :=
  Forall (fun a => (n <= a < n')%N) (identities v).

(** The keys of [ps] are pairwise distinct, as those of an object are. *)
Fixpoint distinctKeys (ps : list (string * JsValue)) : bool :=
  match ps with
  | [] => true
  | (k, _) :: ps' =>
      match getProp k ps' with
      | None => distinctKeys ps'
      | Some _ => false
      end
  end.

(** JSON data: what [JSON.stringify] writes without loss, that is no
    [undefined] and no non-finite number at any depth. *)
Fixpoint jsonData (v : JsValue) {struct v} : bool :=
  match v with
  | VUndefined => false
  | VNumber (Finite _) => true
  | VNumber _ => false
  | VArray _ xs =>
      (fix items (xs : list JsValue) : bool :=
         match xs with
         | [] => true
         | x :: xs' => jsonData x && items xs'
         end) xs
  | VObject _ ps =>
      distinctKeys ps &&
      (fix props (ps : list (string * JsValue)) : bool :=
         match ps with
         | [] => true
         | (_, x) :: ps' => jsonData x && props ps'
         end) ps
  | _ => true
  end.

(** The identity of an array or object; primitives have none. *)
Definition identity (v : JsValue) : option ref :=
  match v with
  | VArray r _ | VObject r _ => Some r
  | _ => None
  end.


(** ** The stores *)

(** The Workflow store, as far as the hook reads it: [state.blocks], each
    block's [type] and [subBlocks], each sub-block's [value].  [blocks] and
    [subBlocks] may be missing, which is what the optional chaining of the
    selectors is for. *)
Module WorkflowStore.

Record SubBlockState : Type := { value : JsValue }.

Record BlockState : Type := {
  type : string;
  subBlocks : option (gmap string SubBlockState)
}.

(** Modelled from the spec: the store exposes [triggerUpdate()], a
    workflow-wide update notification; [updates] counts the notifications
    sent so far. *)
Record State : Type := {
  blocks : option (gmap string BlockState);
  updates : nat
}.

Definition triggerUpdate (st : State) : State :=
  {| blocks := blocks st; updates := S (updates st) |}.

End WorkflowStore.

(** Modelled from the spec: the SubBlock store, missing from the sources.  It
    holds the field values per (blockId, subBlockId), created on first access
    with the default [null]; the parameter values stored per scope (a provider
    or a block type) and parameter name; and the cleared flag per (instance,
    parameter name). *)
Module SubBlockStore.

Record State : Type := {
  values : gmap (string * string) JsValue;
  toolParams : gmap (string * string) string;
  clearedParams : gset (string * string)
}.

Definition getValue (st : State) (blockId subBlockId : string) : JsValue :=
  default VNull (values st !! (blockId, subBlockId)).

Definition setValue (blockId subBlockId : string) (v : JsValue) (st : State) : State :=
  {| values := <[(blockId, subBlockId) := v]> (values st);
     toolParams := toolParams st;
     clearedParams := clearedParams st |}.

Definition setToolParam (toolId paramId : string) (v : string) (st : State) : State :=
  {| values := values st;
     toolParams := <[(toolId, paramId) := v]> (toolParams st);
     clearedParams := clearedParams st |}.

Definition markParamAsCleared (instanceId paramId : string) (st : State) : State :=
  {| values := values st;
     toolParams := toolParams st;
     clearedParams := {[ (instanceId, paramId) ]} ∪ clearedParams st |}.

Definition unmarkParamAsCleared (instanceId paramId : string) (st : State) : State :=
  {| values := values st;
     toolParams := toolParams st;
     clearedParams := clearedParams st ∖ {[ (instanceId, paramId) ]} |}.

Definition isParamCleared (st : State) (instanceId paramId : string) : bool :=
  bool_decide ((instanceId, paramId) ∈ clearedParams st).

End SubBlockStore.

(** The settings store: the one flag the hook reads. *)
Module GeneralStore.

Record State : Type := { isAutoFillEnvVarsEnabled : bool }.

End GeneralStore.

(** The two functions the hook calls whose code is elsewhere:
    [getProviderFromModel] of [@/providers/utils], from a model identifier to
    a provider identifier or [null], and the SubBlock store's
    [resolveToolParamValue (toolId, paramId, instanceId)], which reads the
    store and gives a string or [null].  The hook is verified for every such
    pair of functions. *)
Class Collaborators : Type := {
  getProviderFromModel : string -> option string;
  resolveToolParamValue : SubBlockStore.State -> string -> string -> string -> option string
}.

(** Everything the hook can read or write, with the allocator of the next
    object identity. *)
Record Stores : Type := {
  workflowStore : WorkflowStore.State;
  subBlockStore : SubBlockStore.State;
  generalStore : GeneralStore.State;
  nextRef : ref
}.

Definition withSubBlockStore (f : SubBlockStore.State -> SubBlockStore.State)
    (w : Stores) : Stores :=
  {| workflowStore := workflowStore w;
     subBlockStore := f (subBlockStore w);
     generalStore := generalStore w;
     nextRef := nextRef w |}.

Definition withWorkflowStore (f : WorkflowStore.State -> WorkflowStore.State)
    (w : Stores) : Stores :=
  {| workflowStore := f (workflowStore w);
     subBlockStore := subBlockStore w;
     generalStore := generalStore w;
     nextRef := nextRef w |}.

Definition withNextRef (n : ref) (w : Stores) : Stores :=
  {| workflowStore := workflowStore w;
     subBlockStore := subBlockStore w;
     generalStore := generalStore w;
     nextRef := n |}.

(** ** The hook [useSubBlockValue] *)

(** A string or [null] as a value. *)
Definition ofNullable (o : option string) : JsValue :=
  match o with
  | Some s => VString s
  | None => VNull
  end.

(** [savedValue && savedValue !== ''] on a string or [null]. *)
Definition nonEmpty (o : option string) : bool :=
  match o with
  | Some s => negb (String.eqb s "")
  | None => false
  end.

(** [storeValue && storeValue !== ''] *)
Definition hasValue (v : JsValue) : bool :=
  truthy v && negb (strictEq v (VString "")).

(** [newValue === null || newValue === '' || String(newValue).trim() === ''] *)
Definition isBlank (v : JsValue) : bool :=
  strictEq v VNull || strictEq v (VString "") ||
  String.eqb (Str.trim (toString v)) "".

(** [blockType === 'agent' || blockType === 'router' || blockType === 'evaluator'] *)
Definition providerBased (blockType : option string) : bool :=
  match blockType with
  | Some t => String.eqb t "agent" || String.eqb t "router" || String.eqb t "evaluator"
  | None => false
  end.

(** [!blockType] negated: the type is there and is not the empty string. *)
Definition knownType (blockType : option string) : bool :=
  match blockType with
  | Some t => negb (String.eqb t "")
  | None => false
  end.

(** [JSON.parse(JSON.stringify(v))] where the hook calls it, on a value whose
    [typeof] is ['object'] and which is not [null]. *)
Definition jsonRoundTrip (v : JsValue) (next : ref) : JsValue * ref :=
  match jsonCopy v next with
  | (Some c, n) => (c, n)
  | (None, n) => (VUndefined, n)
  end.

(** The arguments of the hook. *)
Record Props : Type := {
  blockId : string;
  subBlockId : string;
  triggerWorkflowUpdate : bool
}.

(** The two [useRef] cells. *)
Record Refs : Type := {
  valueRef : JsValue;
  prevModelRef : JsValue
}.

(** What one render reads from the stores and derives from it; the setter
    and the effects of that render close over these. *)
Record Render : Type := {
  blockType : option string;
  initialValue : JsValue;
  storeValue : JsValue;
  isApiKey : bool;
  isAutoFillEnvVarsEnabled : bool;
  modelSubBlockValue : JsValue;
  isProviderBasedBlock : bool;
  modelValue : JsValue
}.

Section Hook.

Context `{Collaborators}.

(** [!provider || provider === 'ollama'] negated, on the provider of a model
    value.  The model value is a string by its declared type (the cast on
    line 187); a value of another kind is given no provider. *)
Definition usableProvider (model : JsValue) : option string :=
  match model with
  | VString m =>
      match getProviderFromModel m with
      | Some p => if String.eqb p "" || String.eqb p "ollama" then None else Some p
      | None => None
      end
  | _ => None
  end.

Definition handleProviderBasedApiKey (blockId subBlockId : string)
    (modelValue storeValue : JsValue) (st : SubBlockStore.State) : SubBlockStore.State :=
  if negb (truthy modelValue) then st else
  match usableProvider modelValue with
  | None => st
  | Some provider =>
      let savedValue := resolveToolParamValue st provider "apiKey" blockId in
      if nonEmpty savedValue
      then SubBlockStore.setValue blockId subBlockId (ofNullable savedValue) st
      else SubBlockStore.setValue blockId subBlockId (VString "") st
  end.

(** [typeof storeValue === 'string' && storeValue.startsWith('{{') &&
    storeValue.endsWith('}}')] *)
Definition isEnvVarReference (v : JsValue) : bool :=
  match v with
  | VString s => Str.startsWith s "{{" && Str.endsWith s "}}"
  | _ => false
  end.

Definition handleStandardBlockApiKey (blockId subBlockId : string)
    (blockType : option string) (storeValue : JsValue)
    (st : SubBlockStore.State) : SubBlockStore.State :=
  match blockType with
  | None => st
  | Some t =>
      if String.eqb t "" then st else
      if negb (truthy storeValue) || strictEq storeValue (VString "") then
        let savedValue := resolveToolParamValue st t "apiKey" blockId in
        if nonEmpty savedValue && negb (strictEq (ofNullable savedValue) storeValue)
        then SubBlockStore.setValue blockId subBlockId (ofNullable savedValue) st
        else st
      else if truthy storeValue && isEnvVarReference storeValue then
        let currentValue := resolveToolParamValue st t "apiKey" blockId in
        if negb (strictEq (ofNullable currentValue) storeValue) then
          if truthy (ofNullable currentValue)
          then SubBlockStore.setValue blockId subBlockId (ofNullable currentValue) st
          else st
        else st
      else st
  end.

Definition storeApiKeyValue (blockId : string) (blockType : option string)
    (modelValue newValue storeValue : JsValue)
    (st : SubBlockStore.State) : SubBlockStore.State :=
  match blockType with
  | None => st
  | Some t =>
      if String.eqb t "" then st else
      if hasValue storeValue && isBlank newValue then
        SubBlockStore.markParamAsCleared blockId "apiKey" st
      else if negb (truthy newValue) || String.eqb (Str.trim (toString newValue)) "" then st
      else
        let st1 :=
          if SubBlockStore.isParamCleared st blockId "apiKey"
          then SubBlockStore.unmarkParamAsCleared blockId "apiKey" st
          else st in
        if providerBased blockType && truthy modelValue then
          match usableProvider modelValue with
          | Some provider => SubBlockStore.setToolParam provider "apiKey" (toString newValue) st1
          | None => st1
          end
        else SubBlockStore.setToolParam t "apiKey" (toString newValue) st1
  end.

(** [state.blocks?.[blockId]] *)
Definition selectBlock (blockId : string) (st : WorkflowStore.State)
    : option WorkflowStore.BlockState :=
  match WorkflowStore.blocks st with
  | Some bs => bs !! blockId
  | None => None
  end.

(** [state.blocks?.[blockId]?.type]; [None] is [undefined]. *)
Definition selectBlockType (blockId : string) (st : WorkflowStore.State) : option string :=
  match selectBlock blockId st with
  | Some b => Some (WorkflowStore.type b)
  | None => None
  end.

(** [x ?? null] *)
Definition orNull (v : JsValue) : JsValue :=
  match v with
  | VUndefined | VNull => VNull
  | _ => v
  end.

(** [state.blocks?.[blockId]?.subBlocks?.[subBlockId]?.value ?? null] *)
Definition selectInitialValue (blockId subBlockId : string)
    (st : WorkflowStore.State) : JsValue :=
  match selectBlock blockId st with
  | Some b =>
      match WorkflowStore.subBlocks b with
      | Some sbs =>
          match sbs !! subBlockId with
          | Some sb => orNull (WorkflowStore.value sb)
          | None => VNull
          end
      | None => VNull
      end
  | None => VNull
  end.

(** The body of the hook up to its effects: the selectors and the derived
    values of one render. *)
Definition useSubBlockValue (p : Props) (w : Stores) : Render :=
  let blockType := selectBlockType (blockId p) (workflowStore w) in
  let storeValue := SubBlockStore.getValue (subBlockStore w) (blockId p) (subBlockId p) in
  let isApiKey :=
    String.eqb (subBlockId p) "apiKey" ||
    Str.includes (Str.toLowerCase (subBlockId p)) "apikey" in
  let modelSubBlockValue :=
    if String.eqb (blockId p) "" then VNull
    else SubBlockStore.getValue (subBlockStore w) (blockId p) "model" in
  let isProviderBasedBlock := providerBased blockType in
  {| blockType := blockType;
     initialValue := selectInitialValue (blockId p) (subBlockId p) (workflowStore w);
     storeValue := storeValue;
     isApiKey := isApiKey;
     isAutoFillEnvVarsEnabled :=
       GeneralStore.isAutoFillEnvVarsEnabled (generalStore w);
     modelSubBlockValue := modelSubBlockValue;
     isProviderBasedBlock := isProviderBasedBlock;
     modelValue := if isProviderBasedBlock then modelSubBlockValue else VNull |}.

(** The value the hook returns at a render: [valueRef.current]. *)
Definition currentValue (h : Refs) : JsValue := valueRef h.

(** The setter returned by the render [r]. *)
Definition setValue (p : Props) (r : Render) (newValue : JsValue)
    (hw : Refs * Stores) : Refs * Stores :=
  let '(h, w) := hw in
  if isEqual (valueRef h) newValue then (h, w) else
  let h' := {| valueRef := newValue; prevModelRef := prevModelRef h |} in
  let '(valueCopy, next) :=
    if strictEq newValue VNull then (VNull, nextRef w)
    else if typeofObject newValue then jsonRoundTrip newValue (nextRef w)
    else (newValue, nextRef w) in
  let w1 := withNextRef next w in
  let w2 :=
    if isApiKey r && knownType (blockType r)
    then withSubBlockStore
           (storeApiKeyValue (blockId p) (blockType r) (modelValue r) newValue (storeValue r)) w1
    else w1 in
  let w3 := withSubBlockStore (SubBlockStore.setValue (blockId p) (subBlockId p) valueCopy) w2 in
  let w4 :=
    if triggerWorkflowUpdate p
    then withWorkflowStore WorkflowStore.triggerUpdate w3
    else w3 in
  (h', w4).

(** First effect (mount only): initialise the cache. *)
Definition initValueRef (r : Render) (h : Refs) : Refs :=
  {| valueRef := if negb (strictEq (storeValue r) VUndefined)
                 then storeValue r else initialValue r;
     prevModelRef := prevModelRef h |}.

(** Second effect: auto-fill from the stored parameters. *)
Definition autoFillEffect (p : Props) (r : Render) (w : Stores) : Stores :=
  if negb (isAutoFillEnvVarsEnabled r) then w else
  if negb (isApiKey r) then w else
  if isProviderBasedBlock r
  then withSubBlockStore
         (handleProviderBasedApiKey (blockId p) (subBlockId p) (modelValue r) (storeValue r)) w
  else withSubBlockStore
         (handleStandardBlockApiKey (blockId p) (subBlockId p) (blockType r) (storeValue r)) w.

(** Third effect: react to a change of the selected model. *)
Definition modelChangeEffect (p : Props) (r : Render)
    (hw : Refs * Stores) : Refs * Stores :=
  let '(h, w) := hw in
  if negb (isApiKey r) || negb (isProviderBasedBlock r) then (h, w) else
  if negb (strictEq (modelValue r) (prevModelRef h)) then
    let h' := {| valueRef := valueRef h; prevModelRef := modelValue r |} in
    if truthy (modelValue r) then
      match usableProvider (modelValue r) with
      | None => (h', w)
      | Some provider =>
          let savedValue :=
            resolveToolParamValue (subBlockStore w) provider "apiKey" (blockId p) in
          if nonEmpty savedValue && isAutoFillEnvVarsEnabled r
          then (h', withSubBlockStore
                      (SubBlockStore.setValue (blockId p) (subBlockId p)
                         (ofNullable savedValue)) w)
          else (h', withSubBlockStore
                      (SubBlockStore.setValue (blockId p) (subBlockId p) (VString "")) w)
      end
    else (h', w)
  else (h, w).

(** Fourth effect: bring the cache up to the store value. *)
Definition syncValueRef (r : Render) (h : Refs) : Refs :=
  if negb (isEqual (valueRef h) (storeValue r)) then
    {| valueRef := if negb (strictEq (storeValue r) VUndefined)
                   then storeValue r else initialValue r;
       prevModelRef := prevModelRef h |}
  else h.

(** The refs of a hook that has not rendered yet: both [useRef(null)]. *)
Definition freshRefs : Refs := {| valueRef := VNull; prevModelRef := VNull |}.

(** The effects of the first render, in the order they are declared. *)
Definition mountEffects (p : Props) (r : Render) (hw : Refs * Stores) : Refs * Stores :=
  let '(h, w) := hw in
  let h1 := initValueRef r h in
  let w1 := autoFillEffect p r w in
  let '(h2, w2) := modelChangeEffect p r (h1, w1) in
  (syncValueRef r h2, w2).

(** The effects of a later render; an effect whose dependencies kept their
    values is skipped by React, which [changed2], [changed3] and [changed4]
    say for the three effects that have dependencies. *)
Definition updateEffects (p : Props) (r : Render) (changed2 changed3 changed4 : bool)
    (hw : Refs * Stores) : Refs * Stores :=
  let '(h, w) := hw in
  let w1 := if changed2 then autoFillEffect p r w else w in
  let '(h2, w2) := if changed3 then modelChangeEffect p r (h, w1) else (h, w1) in
  (if changed4 then syncValueRef r h2 else h2, w2).

End Hook.

(** An empty or blank input, in the specification's words: [null], the empty
    string or a string of whitespace only. *)
Definition blankInput (v : JsValue) : Prop :=
  v = VNull \/ exists s : string, v = VString s /\ Str.allWhiteSpace s = true.

(** The block [blockId] is absent from the Workflow store: there is no
    [blocks] table, or it has no entry for [blockId]. *)
Definition blockAbsent (blockId : string) (st : WorkflowStore.State) : Prop :=
  match WorkflowStore.blocks st with
  | Some bs => bs !! blockId = None
  | None => True
  end.

(** The sub-block [subBlockId] is absent from the block [b]. *)
Definition subBlockAbsent (subBlockId : string) (b : WorkflowStore.BlockState) : Prop :=
  match WorkflowStore.subBlocks b with
  | Some sbs => sbs !! subBlockId = None
  | None => True
  end.

(** ** The toolbar *)

Module ToolbarUI.

(** A category of blocks; the first tab shown is ['basic']. *)
Definition BlockCategory : Type := string.

(** The part of a block's configuration the toolbar reads. *)
Record ToolbarInfo : Type := { title : string; description : string }.

Record BlockConfig : Type := { type : string; toolbar : ToolbarInfo }.

(** The block registry ([blocks/index]), whose code is elsewhere: all the
    blocks, and the blocks of one category. *)
Class BlockRegistry : Type := {
  getAllBlocks : list BlockConfig;
  getBlocksByCategory : BlockCategory -> list BlockConfig
}.

(** The three [useState] cells of the component. *)
Record State : Type := {
  activeTab : BlockCategory;
  searchQuery : string;
  isCollapsed : bool
}.

Definition initialState : State :=
  {| activeTab := "basic"; searchQuery := ""; isCollapsed := false |}.

Definition setActiveTab (tab : BlockCategory) (st : State) : State :=
  {| activeTab := tab; searchQuery := searchQuery st; isCollapsed := isCollapsed st |}.

Definition setSearchQuery (q : string) (st : State) : State :=
  {| activeTab := activeTab st; searchQuery := q; isCollapsed := isCollapsed st |}.

Definition setIsCollapsed (c : bool) (st : State) : State :=
  {| activeTab := activeTab st; searchQuery := searchQuery st; isCollapsed := c |}.

Section Blocks.

Context `{BlockRegistry}.

(** The filter of the search branch. *)
Definition matchesQuery (query : string) (block : BlockConfig) : bool :=
  Str.includes (Str.toLowerCase (title (toolbar block))) query ||
  Str.includes (Str.toLowerCase (description (toolbar block))) query.

(** The memoised [blocks]: the list the toolbar displays. *)
Definition blocks (st : State) : list BlockConfig :=
  if String.eqb (Str.trim (searchQuery st)) "" then
    getBlocksByCategory (activeTab st)
  else
    let query := Str.toLowerCase (searchQuery st) in
    List.filter (matchesQuery query) getAllBlocks.

(** [!searchQuery]: the tabs are rendered only for the empty query. *)
Definition showsTabs (st : State) : bool := String.eqb (searchQuery st) "".

End Blocks.

(** The specification's words: [s] contains [q] as a case-insensitive
    substring when some stretch of [s] is [q] up to the case of its letters. *)
Definition containsIgnoringCase (s q : string) : Prop :=
  exists pre mid post : string,
    s = pre +:+ mid +:+ post /\ Str.toLowerCase mid = Str.toLowerCase q.

(** A whitespace-only query, in the specification's words: every code unit
    of it is a whitespace character. *)
Definition whitespaceOnly (q : string) : Prop :=
  forall c : ascii, In c (list_ascii_of_string q) -> Str.isWhiteSpace c = true.

End ToolbarUI.

(** ** Sample data

    Concrete collaborators, stores and blocks on which the definitions above
    are run. *)

Module Sample.

(** A provider table in the manner of [@/providers/utils]. *)
Definition providerOf (model : string) : option string :=
  if Str.startsWith model "gpt" then Some "openai"
  else if Str.startsWith model "claude" then Some "anthropic"
  else if Str.startsWith model "llama" then Some "ollama"
  else None.

(** Modelled from the spec: a cleared instance is not auto-filled, so the
    stored parameter is withheld from an instance marked as cleared. *)
Definition resolve (st : SubBlockStore.State) (toolId paramId instanceId : string)
    : option string :=
  if SubBlockStore.isParamCleared st instanceId paramId then None
  else SubBlockStore.toolParams st !! (toolId, paramId).

Definition collaborators : Collaborators :=
  {| getProviderFromModel := providerOf; resolveToolParamValue := resolve |}.

(** A workflow with an agent block [a1] and a Snowflake block [s1]. *)
Definition workflow : WorkflowStore.State :=
  {| WorkflowStore.blocks := Some (
       <["a1" := {| WorkflowStore.type := "agent";
                    WorkflowStore.subBlocks := Some (
                      <["apiKey" := {| WorkflowStore.value := VNull |}]> ∅) |}]> (
       <["s1" := {| WorkflowStore.type := "snowflake";
                    WorkflowStore.subBlocks := None |}]> ∅));
     WorkflowStore.updates := 0 |}.

Definition emptySubBlockStore : SubBlockStore.State :=
  {| SubBlockStore.values := ∅;
     SubBlockStore.toolParams := ∅;
     SubBlockStore.clearedParams := ∅ |}.

Definition stores (sub : SubBlockStore.State) (autoFill : bool) : Stores :=
  {| workflowStore := workflow;
     subBlockStore := sub;
     generalStore := {| GeneralStore.isAutoFillEnvVarsEnabled := autoFill |};
     nextRef := 100 |}.

(** The hook after its first render and the render that follows it: the
    render the user acts on, with the refs and stores at that time. *)
Definition mounted (p : Props) (w : Stores) : Render * (Refs * Stores) :=
  let hw := mountEffects (H := collaborators) p (useSubBlockValue p w) (freshRefs, w) in
  let r := useSubBlockValue p (snd hw) in
  (r, updateEffects (H := collaborators) p r true true true hw).

Definition apiKeyOf (block : string) : Props :=
  {| blockId := block; subBlockId := "apiKey"; triggerWorkflowUpdate := true |}.

Definition fieldOf (block field : string) : Props :=
  {| blockId := block; subBlockId := field; triggerWorkflowUpdate := true |}.

Definition snowflake : ToolbarUI.BlockConfig :=
  {| ToolbarUI.type := "snowflake";
     ToolbarUI.toolbar :=
       {| ToolbarUI.title := "Snowflake Query";
          ToolbarUI.description := "Run SQL against a warehouse" |} |}.

Definition agent : ToolbarUI.BlockConfig :=
  {| ToolbarUI.type := "agent";
     ToolbarUI.toolbar :=
       {| ToolbarUI.title := "Agent";
          ToolbarUI.description := "Build an agent" |} |}.

Definition registry : ToolbarUI.BlockRegistry :=
  {| ToolbarUI.getAllBlocks := [agent; snowflake];
     ToolbarUI.getBlocksByCategory := fun c =>
       if String.eqb c "basic" then [agent]
       else if String.eqb c "advanced" then [snowflake]
       else [] |}.

End Sample.

(** ** Frames and invariants of the stores *)

(** From [w] to [w'] nothing was written but the field of the hook: the
    Workflow store, the settings, the allocator, the stored parameters and the
    cleared flags are the same, and so is every other field value. *)
Definition writesOnlyField (p : Props) (w w' : Stores) : Prop :=
  workflowStore w' = workflowStore w /\
  generalStore w' = generalStore w /\
  nextRef w' = nextRef w /\
  SubBlockStore.toolParams (subBlockStore w') = SubBlockStore.toolParams (subBlockStore w) /\
  SubBlockStore.clearedParams (subBlockStore w') =
    SubBlockStore.clearedParams (subBlockStore w) /\
  forall k : string * string,
    k <> (blockId p, subBlockId p) ->
    SubBlockStore.values (subBlockStore w') !! k = SubBlockStore.values (subBlockStore w) !! k.

(** No stored parameter is blank. *)
Definition noBlankParams (st : SubBlockStore.State) : Prop :=
  forall (k : string * string) (v : string),
    SubBlockStore.toolParams st !! k = Some v -> Str.trim v <> "".

(** The resolver reads the stored parameters and the cleared flags only, not
    the field values. *)
Definition resolverIgnoresValues (C : Collaborators) : Prop :=
  forall st st' : SubBlockStore.State,
    SubBlockStore.toolParams st' = SubBlockStore.toolParams st ->
    SubBlockStore.clearedParams st' = SubBlockStore.clearedParams st ->
    forall toolId paramId instanceId : string,
      resolveToolParamValue st' toolId paramId instanceId =
      resolveToolParamValue st toolId paramId instanceId.

(** ** A second sample: blocks that share a credential scope *)

Module Shared.

(** A workflow with an agent and a router block, which are routed to
    providers, and two Snowflake blocks. *)
Definition workflow : WorkflowStore.State :=
  {| WorkflowStore.blocks := Some (
       <["a1" := {| WorkflowStore.type := "agent"; WorkflowStore.subBlocks := None |}]> (
       <["r1" := {| WorkflowStore.type := "router"; WorkflowStore.subBlocks := None |}]> (
       <["s1" := {| WorkflowStore.type := "snowflake"; WorkflowStore.subBlocks := None |}]> (
       <["s2" := {| WorkflowStore.type := "snowflake"; WorkflowStore.subBlocks := None |}]>
         ∅))));
     WorkflowStore.updates := 0 |}.

(** Both provider-routed blocks have an OpenAI model selected. *)
Definition subBlocks : SubBlockStore.State :=
  SubBlockStore.setValue "a1" "model" (VString "gpt-4o")
    (SubBlockStore.setValue "r1" "model" (VString "gpt-4o-mini")
       Sample.emptySubBlockStore).

Definition stores : Stores :=
  {| workflowStore := workflow;
     subBlockStore := subBlocks;
     generalStore := {| GeneralStore.isAutoFillEnvVarsEnabled := true |};
     nextRef := 100 |}.

End Shared.

(** The resolver withholds every stored parameter from an instance marked as
    cleared. *)
Definition resolverHonoursCleared (C : Collaborators) (instanceId : string) : Prop :=
  forall (st : SubBlockStore.State) (scope : string),
    SubBlockStore.isParamCleared st instanceId "apiKey" = true ->
    resolveToolParamValue st scope "apiKey" instanceId = None.

(** The key of the block is marked as cleared and the field of the hook holds
    the blank value [nv] the user left or the empty string. *)
Definition keptCleared (p : Props) (nv : JsValue) (st : SubBlockStore.State) : Prop :=
  SubBlockStore.isParamCleared st (blockId p) "apiKey" = true /\
  (SubBlockStore.getValue st (blockId p) (subBlockId p) = nv \/
   SubBlockStore.getValue st (blockId p) (subBlockId p) = VString "").

(** ** The selectors, with the errors of member access

    Reading a member of [undefined] raises a TypeError; the optional chaining
    [?.] gives [undefined] instead.  The two selectors of the hook are
    evaluated here step by step with that distinction, [None] standing for
    [undefined]. *)

Inductive Outcome (A : Type) : Type :=
| Returns (a : A)
| Throws.

Arguments Returns {A} a.
Arguments Throws {A}.

Definition andThen {A B : Type} (o : Outcome A) (k : A -> Outcome B) : Outcome B :=
  match o with
  | Returns a => k a
  | Throws => Throws
  end.

(** [base.k] and [base[k]] *)
Definition member {A B : Type} (base : option A) (get : A -> option B)
    : Outcome (option B) :=
  match base with
  | Some a => Returns (get a)
  | None => Throws
  end.

(** [base?.k] and [base?.[k]] *)
Definition optionalMember {A B : Type} (base : option A) (get : A -> option B)
    : Outcome (option B) :=
  match base with
  | Some a => Returns (get a)
  | None => Returns None
  end.

(** [state.blocks?.[blockId]?.type] *)
Definition evalBlockType (blockId : string) (state : WorkflowStore.State)
    : Outcome (option string) :=
  andThen (member (Some state) WorkflowStore.blocks) (fun blocks =>
  andThen (optionalMember blocks (fun bs => bs !! blockId)) (fun block =>
  optionalMember block (fun b => Some (WorkflowStore.type b)))).

(** [state.blocks?.[blockId]?.subBlocks?.[subBlockId]?.value ?? null] *)
Definition evalInitialValue (blockId subBlockId : string) (state : WorkflowStore.State)
    : Outcome JsValue :=
  andThen (member (Some state) WorkflowStore.blocks) (fun blocks =>
  andThen (optionalMember blocks (fun bs => bs !! blockId)) (fun block =>
  andThen (optionalMember block WorkflowStore.subBlocks) (fun subBlocks =>
  andThen (optionalMember subBlocks (fun sbs => sbs !! subBlockId)) (fun subBlock =>
  andThen (optionalMember subBlock (fun sb => Some (WorkflowStore.value sb))) (fun v =>
  Returns (orNull (default VUndefined v))))))).

(** * Properties *)

(** ** Strings *)

Section StringFacts.

Import Str.

Lemma app_empty (s : string) : "" +:+ s = s.
Proof. reflexivity. Qed.

Lemma app_String (c : ascii) (s t : string) : String c s +:+ t = String c (s +:+ t).
Proof. reflexivity. Qed.

Lemma trimStart_allWhiteSpace (s : string) :
  allWhiteSpace s = true -> trimStart s = "".
Proof.
  induction s as [|c s IH]; simpl; [reflexivity|].
  intros [Hc Hs]%andb_true_iff. rewrite Hc. auto.
Qed.

Lemma allWhiteSpace_In (s : string) :
  (forall c, In c (list_ascii_of_string s) -> isWhiteSpace c = true) ->
  allWhiteSpace s = true.
Proof.
  induction s as [|c s IH]; simpl; [reflexivity|].
  intros Hall. apply andb_true_iff. split.
  - apply Hall. now left.
  - apply IH. intros d Hd. apply Hall. now right.
Qed.

Lemma trim_allWhiteSpace (s : string) : allWhiteSpace s = true -> trim s = "".
Proof. intros Hs. unfold trim. now rewrite trimStart_allWhiteSpace. Qed.

Lemma startsWith_app (p post : string) : startsWith (p +:+ post) p = true.
Proof.
  induction p as [|a p IH]; [reflexivity|].
  rewrite app_String. cbn [startsWith]. now rewrite Ascii.eqb_refl.
Qed.

Lemma startsWith_inv (s p : string) :
  startsWith s p = true -> exists post, s = p +:+ post.
Proof.
  revert s. induction p as [|a p IH]; intros s; simpl.
  - intros _. now exists s.
  - destruct s as [|b s]; [discriminate|].
    intros [Hab Hs]%andb_true_iff.
    apply Ascii.eqb_eq in Hab. subst b.
    destruct (IH _ Hs) as [post ->]. now exists post.
Qed.

Lemma includes_startsWith (s q : string) :
  startsWith s q = true -> includes s q = true.
Proof. intros Hq. destruct s; cbn [includes]; now rewrite Hq. Qed.

Lemma includes_app (pre q post : string) :
  includes (pre +:+ q +:+ post) q = true.
Proof.
  induction pre as [|a pre IH].
  - rewrite app_empty. apply includes_startsWith, startsWith_app.
  - rewrite app_String. cbn [includes]. rewrite IH. apply orb_true_r.
Qed.

Lemma includes_inv (s q : string) :
  includes s q = true -> exists pre post, s = pre +:+ q +:+ post.
Proof.
  induction s as [|a s IH].
  - simpl. rewrite orb_false_r. intros [post Hp]%startsWith_inv.
    exists "", post. exact Hp.
  - cbn [includes]. intros [Hp|Hs]%orb_true_iff.
    + apply startsWith_inv in Hp as [post Hp]. exists "", post. exact Hp.
    + destruct (IH Hs) as (pre & post & ->). now exists (String a pre), post.
Qed.

Lemma toLowerCase_app (a b : string) :
  toLowerCase (a +:+ b) = toLowerCase a +:+ toLowerCase b.
Proof.
  induction a as [|c a IH]; [reflexivity|].
  rewrite !app_String. cbn [toLowerCase]. now rewrite IH.
Qed.

(** A split of the lower-cased string comes from a split of the string. *)
Lemma toLowerCase_split (s a b : string) :
  toLowerCase s = a +:+ b ->
  exists s1 s2, s = s1 +:+ s2 /\ toLowerCase s1 = a /\ toLowerCase s2 = b.
Proof.
  revert s. induction a as [|c a IH]; intros s; simpl.
  - intros Hs. now exists "", s.
  - destruct s as [|d s]; [discriminate|]. simpl.
    intros [= Hc Hs]. destruct (IH _ Hs) as (s1 & s2 & -> & H1 & H2).
    exists (String d s1), s2. simpl. now rewrite Hc, H1.
Qed.

(** The test of the code decides the specification's relation. *)
Lemma includes_toLowerCase (s q : string) :
  includes (toLowerCase s) (toLowerCase q) = true <->
  ToolbarUI.containsIgnoringCase s q.
Proof.
  split.
  - intros (pre' & post' & Hs)%includes_inv.
    apply toLowerCase_split in Hs as (pre & rest & -> & _ & Hrest).
    apply toLowerCase_split in Hrest as (mid & post & -> & Hmid & _).
    now exists pre, mid, post.
  - intros (pre & mid & post & -> & Hmid).
    rewrite !toLowerCase_app, Hmid. apply includes_app.
Qed.

End StringFacts.

(** ** The toolbar's block list *)

Section ToolbarFacts.

Import ToolbarUI.
Context `{BlockRegistry}.

Lemma matchesQuery_spec (q : string) (b : BlockConfig) :
  matchesQuery (Str.toLowerCase q) b = true <->
  containsIgnoringCase (title (toolbar b)) q \/
  containsIgnoringCase (description (toolbar b)) q.
Proof.
  unfold matchesQuery. rewrite orb_true_iff, !includes_toLowerCase. reflexivity.
Qed.

Lemma blocks_search (st : State) :
  Str.trim (searchQuery st) <> "" ->
  blocks st = List.filter (matchesQuery (Str.toLowerCase (searchQuery st))) getAllBlocks.
Proof.
  intros Hq. unfold blocks.
  destruct (String.eqb_spec (Str.trim (searchQuery st)) ""); [contradiction|reflexivity].
Qed.

Lemma blocks_category (st : State) :
  Str.trim (searchQuery st) = "" ->
  blocks st = getBlocksByCategory (activeTab st).
Proof. intros Hq. unfold blocks. now rewrite Hq. Qed.

End ToolbarFacts.

(** C6. Toolbar search.  When the query is not empty after trimming, the
    displayed list is the list of all blocks filtered, in order, by a test
    that holds exactly of the blocks whose title or description contains the
    query as a case-insensitive substring; the active tab plays no part.
    When the query is empty the list is that of the active category.  The
    query [snow] shows every registered block titled [Snowflake Query],
    whatever the tab. *)
Theorem C6_toolbar_search (R : ToolbarUI.BlockRegistry) (st : ToolbarUI.State) :
  (Str.trim (ToolbarUI.searchQuery st) <> "" ->
     (exists keep : ToolbarUI.BlockConfig -> bool,
        (forall b, keep b = true <->
           ToolbarUI.containsIgnoringCase
             (ToolbarUI.title (ToolbarUI.toolbar b)) (ToolbarUI.searchQuery st) \/
           ToolbarUI.containsIgnoringCase
             (ToolbarUI.description (ToolbarUI.toolbar b)) (ToolbarUI.searchQuery st)) /\
        ToolbarUI.blocks st = List.filter keep ToolbarUI.getAllBlocks) /\
     (forall tab, ToolbarUI.blocks (ToolbarUI.setActiveTab tab st) = ToolbarUI.blocks st)) /\
  (ToolbarUI.searchQuery st = "" ->
     ToolbarUI.blocks st = ToolbarUI.getBlocksByCategory (ToolbarUI.activeTab st)) /\
  (forall b, In b ToolbarUI.getAllBlocks ->
     ToolbarUI.title (ToolbarUI.toolbar b) = "Snowflake Query" ->
     In b (ToolbarUI.blocks (ToolbarUI.setSearchQuery "snow" st))).
Proof.
  repeat split.
  - exists (ToolbarUI.matchesQuery (Str.toLowerCase (ToolbarUI.searchQuery st))).
    split; [intros b; apply matchesQuery_spec | now apply blocks_search].
  - intros tab. rewrite !blocks_search by assumption. reflexivity.
  - intros Hq. apply blocks_category. now rewrite Hq.
  - intros b Hb Htitle.
    rewrite blocks_search by (cbn; discriminate).
    apply filter_In. split; [exact Hb|].
    unfold ToolbarUI.matchesQuery. now rewrite Htitle.
Qed.

(** On the sample registry: [SNOW] finds the Snowflake block from the basic
    tab, and the empty query lists the basic tab. *)
Lemma C6_witness :
  ToolbarUI.blocks (H := Sample.registry)
    {| ToolbarUI.activeTab := "basic"; ToolbarUI.searchQuery := "SNOW";
       ToolbarUI.isCollapsed := false |} = [Sample.snowflake] /\
  ToolbarUI.blocks (H := Sample.registry) ToolbarUI.initialState = [Sample.agent] /\
  In Sample.snowflake
    (ToolbarUI.blocks (H := Sample.registry)
       (ToolbarUI.setSearchQuery "snow" ToolbarUI.initialState)).
Proof.
  pose proof (C6_toolbar_search Sample.registry
    {| ToolbarUI.activeTab := "basic"; ToolbarUI.searchQuery := "SNOW";
       ToolbarUI.isCollapsed := false |}) as [Hsearch _].
  pose proof (C6_toolbar_search Sample.registry ToolbarUI.initialState)
    as (_ & Hempty & Hsnow).
  split; [|split].
  - destruct Hsearch as [(keep & _ & Heq) _]; [cbn; discriminate|].
    reflexivity.
  - rewrite Hempty by reflexivity. reflexivity.
  - apply Hsnow; [cbn; tauto | reflexivity].
Defined.

(** C10. A query made of whitespace only is treated as the empty query: the
    toolbar shows the blocks of the active category and does no search,
    although the query is not the empty string. *)
Theorem C10_whitespace_query (R : ToolbarUI.BlockRegistry) (st : ToolbarUI.State) :
  ToolbarUI.whitespaceOnly (ToolbarUI.searchQuery st) ->
  ToolbarUI.blocks st = ToolbarUI.getBlocksByCategory (ToolbarUI.activeTab st).
Proof.
  intros Hws. apply blocks_category, trim_allWhiteSpace, allWhiteSpace_In, Hws.
Qed.

(** On the sample registry: two spaces list the advanced tab. *)
Lemma C10_witness :
  ToolbarUI.blocks (H := Sample.registry)
    {| ToolbarUI.activeTab := "advanced"; ToolbarUI.searchQuery := "  ";
       ToolbarUI.isCollapsed := false |} = [Sample.snowflake] /\
  "  " <> "".
Proof.
  split; [|discriminate].
  rewrite (C10_whitespace_query Sample.registry); [reflexivity|].
  intros c [<-|[<-|[]]]; reflexivity.
Defined.

(** ** Values *)

(** [isEqual] holds of a value and itself, [NaN] included. *)
Lemma isEqual_refl (v : JsValue) : isEqual v v = true.
Proof.
  destruct v as [| |b|[|b|z]|s|r xs|r ps]; cbn [isEqual strictEq];
    rewrite ?Z.eqb_refl, ?String.eqb_refl, ?N.eqb_refl; try reflexivity.
  all: now destruct b.
Qed.

(** ** The setter and the cache *)

Section HookFacts.

Context `{Collaborators}.

Lemma setValue_equal (p : Props) (r : Render) (v : JsValue) (h : Refs) (w : Stores) :
  isEqual (valueRef h) v = true -> setValue p r v (h, w) = (h, w).
Proof. intros Heq. unfold setValue. now rewrite Heq. Qed.

Lemma modelChangeEffect_valueRef (p : Props) (r : Render) (h : Refs) (w : Stores) :
  valueRef (fst (modelChangeEffect p r (h, w))) = valueRef h.
Proof.
  unfold modelChangeEffect.
  repeat (match goal with
          | |- context [if ?b then _ else _] => destruct b
          | |- context [match ?o with Some _ => _ | None => _ end] => destruct o
          end; try reflexivity).
Qed.

Lemma syncValueRef_equal (r : Render) (h : Refs) :
  isEqual (valueRef h) (storeValue r) = true -> syncValueRef r h = h.
Proof. intros Heq. unfold syncValueRef. now rewrite Heq. Qed.

End HookFacts.

(** C9. A call [setValue(v)] with [v] deep-equal to the cached value does
    nothing: the refs and every store (SubBlock values, stored parameters,
    cleared flags, Workflow store with its update count) are as before, also
    when [triggerWorkflowUpdate] is set. *)
Theorem C9_setValue_deep_equal_is_noop (C : Collaborators) (p : Props) (r : Render)
    (v : JsValue) (h : Refs) (w : Stores) :
  isEqual (valueRef h) v = true ->
  setValue p r v (h, w) = (h, w).
Proof. apply setValue_equal. Qed.

(** A deep-equal object at another identity, with [triggerWorkflowUpdate]
    set: nothing moves. *)
Lemma C9_witness :
  let w := Sample.stores Sample.emptySubBlockStore true in
  let p := Sample.fieldOf "s1" "params" in
  let h := {| valueRef := VObject 1 [("a", VNumber (Finite 1))]; prevModelRef := VNull |} in
  triggerWorkflowUpdate p = true /\
  setValue (H := Sample.collaborators) p (useSubBlockValue p w)
    (VObject 2 [("a", VNumber (Finite 1))]) (h, w) = (h, w).
Proof.
  split; [reflexivity|].
  apply (C9_setValue_deep_equal_is_noop Sample.collaborators). reflexivity.
Defined.

(** C7. Store-to-cache synchronisation.  When the store value is deep-equal
    to the cached value the effect leaves the refs as they are, so the cached
    reference is the very same, and so it is after the whole round of effects
    of a re-render; the cache is rewritten only when the store value is not
    deep-equal to it. *)
Theorem C7_sync_keeps_deep_equal_cache (C : Collaborators) (r : Render) (h : Refs) :
  (isEqual (valueRef h) (storeValue r) = true ->
     syncValueRef r h = h /\
     forall (p : Props) (changed2 changed3 changed4 : bool) (w : Stores),
       valueRef (fst (updateEffects p r changed2 changed3 changed4 (h, w))) = valueRef h) /\
  (syncValueRef r h <> h -> isEqual (valueRef h) (storeValue r) = false).
Proof.
  split.
  - intros Heq. split; [now apply syncValueRef_equal|].
    intros p c2 c3 c4 w. unfold updateEffects.
    pose proof (modelChangeEffect_valueRef p r h
                  (if c2 then autoFillEffect p r w else w)) as Hm.
    destruct c3; [destruct (modelChangeEffect _ _ _) as [h2 w2]; cbn in Hm|];
      cbn [fst]; destruct c4; try assumption; try reflexivity.
    all: unfold syncValueRef; rewrite ?Hm, Heq; cbn; try assumption; try reflexivity.
  - intros Hne. destruct (isEqual (valueRef h) (storeValue r)) eqn:Heq; [|reflexivity].
    now rewrite syncValueRef_equal in Hne.
Qed.

(** A cached table and a deep-equal store value at other identities: the
    refs stay as they are. *)
Lemma C7_witness :
  let cached := VObject 1 [("rows", VArray 2 [VString "x"])] in
  let stored := VObject 7 [("rows", VArray 8 [VString "x"])] in
  let p := Sample.fieldOf "s1" "table" in
  let w := Sample.stores
             (SubBlockStore.setValue "s1" "table" stored Sample.emptySubBlockStore) true in
  let h := {| valueRef := cached; prevModelRef := VNull |} in
  syncValueRef (useSubBlockValue p w) h = h /\
  strictEq cached stored = false.
Proof.
  split; [|reflexivity].
  apply (C7_sync_keeps_deep_equal_cache Sample.collaborators). reflexivity.
Defined.

(** ** Storing an API key *)

Lemma isParamCleared_mark (b k : string) (st : SubBlockStore.State) :
  SubBlockStore.isParamCleared (SubBlockStore.markParamAsCleared b k st) b k = true.
Proof.
  unfold SubBlockStore.isParamCleared, SubBlockStore.markParamAsCleared. cbn.
  apply bool_decide_eq_true. set_solver.
Qed.

Lemma isParamCleared_unmark (b k : string) (st : SubBlockStore.State) :
  SubBlockStore.isParamCleared (SubBlockStore.unmarkParamAsCleared b k st) b k = false.
Proof.
  unfold SubBlockStore.isParamCleared, SubBlockStore.unmarkParamAsCleared. cbn.
  apply bool_decide_eq_false.
  intros [_ Hout]%elem_of_difference. apply Hout. now apply elem_of_singleton.
Qed.

Section StoreApiKeyFacts.

Context `{Collaborators}.

Lemma isBlank_blankInput (v : JsValue) : blankInput v -> isBlank v = true.
Proof.
  intros [->|(s & -> & Hs)]; [reflexivity|].
  unfold isBlank. cbn [toString]. rewrite trim_allWhiteSpace by assumption.
  apply orb_true_r.
Qed.

Lemma knownType_inv (bt : option string) :
  knownType bt = true -> exists t, bt = Some t /\ String.eqb t "" = false.
Proof.
  destruct bt as [t|]; [|discriminate]. cbn.
  intros Ht%negb_true_iff. now exists t.
Qed.

(** The stores after a call that passes the deep-equality guard. *)
Lemma setValue_subBlockStore (p : Props) (r : Render) (nv : JsValue)
    (h : Refs) (w : Stores) :
  isEqual (valueRef h) nv = false ->
  exists copy : JsValue,
    subBlockStore (snd (setValue p r nv (h, w))) =
    SubBlockStore.setValue (blockId p) (subBlockId p) copy
      (if isApiKey r && knownType (blockType r)
       then storeApiKeyValue (blockId p) (blockType r) (modelValue r) nv (storeValue r)
              (subBlockStore w)
       else subBlockStore w).
Proof.
  intros Hne. unfold setValue. rewrite Hne.
  destruct (if strictEq nv VNull then _ else _) as [copy next].
  exists copy.
  destruct (isApiKey r && knownType (blockType r)), (triggerWorkflowUpdate p);
    reflexivity.
Qed.

Lemma storeApiKeyValue_unknown (b : string) (bt : option string)
    (m nv sv : JsValue) (st : SubBlockStore.State) :
  knownType bt = false -> storeApiKeyValue b bt m nv sv st = st.
Proof.
  destruct bt as [t|]; [|reflexivity]. cbn.
  intros Ht%negb_false_iff. now rewrite Ht.
Qed.

Lemma storeApiKeyValue_clearing (b : string) (bt : option string)
    (m nv sv : JsValue) (st : SubBlockStore.State) :
  knownType bt = true -> hasValue sv = true -> isBlank nv = true ->
  storeApiKeyValue b bt m nv sv st = SubBlockStore.markParamAsCleared b "apiKey" st.
Proof.
  intros (t & -> & Ht)%knownType_inv Hsv Hnv.
  unfold storeApiKeyValue. now rewrite Ht, Hsv, Hnv.
Qed.

Lemma isBlank_false (nv : JsValue) :
  truthy nv = true -> Str.trim (toString nv) <> "" -> isBlank nv = false.
Proof.
  intros Ht Hs. unfold isBlank.
  destruct (String.eqb_spec (Str.trim (toString nv)) "") as [|_]; [contradiction|].
  destruct nv as [| |b|[|neg|z]|s|r xs|r ps]; try discriminate; try reflexivity.
  cbn in Ht |- *. apply negb_true_iff in Ht. now rewrite Ht.
Qed.

Lemma storeApiKeyValue_storing (b t : string)
    (m nv sv : JsValue) (st : SubBlockStore.State) :
  String.eqb t "" = false ->
  truthy nv = true -> Str.trim (toString nv) <> "" ->
  storeApiKeyValue b (Some t) m nv sv st =
  let st1 := SubBlockStore.unmarkParamAsCleared b "apiKey" st in
  if providerBased (Some t) && truthy m then
    match usableProvider m with
    | Some provider => SubBlockStore.setToolParam provider "apiKey" (toString nv) st1
    | None => st1
    end
  else SubBlockStore.setToolParam t "apiKey" (toString nv) st1.
Proof.
  intros Ht Hnv Hs. unfold storeApiKeyValue.
  rewrite Ht, (isBlank_false nv Hnv Hs), andb_false_r, Hnv.
  destruct (String.eqb_spec (Str.trim (toString nv)) ""); [contradiction|].
  cbn [negb orb].
  assert (Hst1 : (if SubBlockStore.isParamCleared st b "apiKey"
                  then SubBlockStore.unmarkParamAsCleared b "apiKey" st else st)
                 = SubBlockStore.unmarkParamAsCleared b "apiKey" st).
  { unfold SubBlockStore.isParamCleared. case_bool_decide as Hc; [reflexivity|].
    destruct st as [vs tps cl]. unfold SubBlockStore.unmarkParamAsCleared. cbn in *.
    f_equal. apply set_eq. intros y. rewrite elem_of_difference, elem_of_singleton.
    split; [|tauto]. intros Hy. split; [exact Hy|]. now intros ->. }
  rewrite Hst1. reflexivity.
Qed.

End StoreApiKeyFacts.

(** C3, as amended.  On an API-key field of a block of known type, a call of
    [setValue] with [null], the empty string or a whitespace-only string that
    is not deep-equal to the cached value, made while the store value of the
    render is non-empty, marks (blockId, [apiKey]) as cleared and leaves the
    stored parameters as they were. *)
Theorem C3_clearing_marks_cleared (C : Collaborators) (p : Props) (r : Render)
    (nv : JsValue) (h : Refs) (w : Stores) :
  isApiKey r = true ->
  knownType (blockType r) = true ->
  hasValue (storeValue r) = true ->
  blankInput nv ->
  isEqual (valueRef h) nv = false ->
  let st' := subBlockStore (snd (setValue p r nv (h, w))) in
  SubBlockStore.isParamCleared st' (blockId p) "apiKey" = true /\
  SubBlockStore.toolParams st' = SubBlockStore.toolParams (subBlockStore w).
Proof.
  intros Hkey Htype Hsv Hnv Hne st'. subst st'.
  destruct (setValue_subBlockStore p r nv h w Hne) as [copy ->].
  rewrite Hkey, Htype. cbn [andb].
  rewrite storeApiKeyValue_clearing by auto using isBlank_blankInput.
  split; [apply isParamCleared_mark | reflexivity].
Qed.

(** Clearing the key of the Snowflake block: the flag is set and the stored
    key stays. *)
Lemma C3_witness :
  let p := Sample.apiKeyOf "s1" in
  let sub := SubBlockStore.setToolParam "snowflake" "apiKey" "sk-1"
               (SubBlockStore.setValue "s1" "apiKey" (VString "sk-1")
                  Sample.emptySubBlockStore) in
  let m := Sample.mounted p (Sample.stores sub true) in
  let r := fst m in
  let h := fst (snd m) in
  let w := snd (snd m) in
  let st' := subBlockStore (snd (setValue (H := Sample.collaborators) p r (VString "") (h, w))) in
  SubBlockStore.isParamCleared st' "s1" "apiKey" = true /\
  SubBlockStore.toolParams st' !! ("snowflake", "apiKey") = Some "sk-1".
Proof.
  intros p sub m r h w st'.
  assert (Hblank : blankInput (VString "")).
  { right. exists "". split; reflexivity. }
  destruct (C3_clearing_marks_cleared Sample.collaborators p r (VString "") h w
              eq_refl eq_refl eq_refl Hblank eq_refl) as [Hcleared Hparams].
  split; [exact Hcleared|]. subst st'. rewrite Hparams. reflexivity.
Defined.

(** C3 as stated fails: after mounting on a field that holds two spaces, a
    non-empty value, the call [setValue("  ")] with a whitespace-only value
    is stopped by the deep-equality guard and marks nothing. *)
Lemma C3_counterexample :
  let p := Sample.apiKeyOf "s1" in
  let sub := SubBlockStore.setValue "s1" "apiKey" (VString "  ") Sample.emptySubBlockStore in
  let m := Sample.mounted p (Sample.stores sub true) in
  let r := fst m in
  let st' := subBlockStore
               (snd (setValue (H := Sample.collaborators) p r (VString "  ") (snd m))) in
  isApiKey r = true /\
  knownType (blockType r) = true /\
  storeValue r = VString "  " /\
  hasValue (storeValue r) = true /\
  blankInput (VString "  ") /\
  SubBlockStore.isParamCleared st' "s1" "apiKey" = false.
Proof.
  repeat split; try reflexivity.
  right. exists "  ". split; reflexivity.
Qed.

(** C4, as amended.  On an API-key field of a block of known type [t], a call
    of [setValue] with a non-blank value that is not deep-equal to the cached
    value leaves (blockId, [apiKey]) unmarked and stores [String(value)]:
    under the provider of the selected model when [t] is [agent], [router]
    or [evaluator], a model is selected and its provider is resolved and is
    not [ollama]; under [t] when [t] is none of the three or no model is
    selected; and not at all when [t] is one of the three and the selected
    model has no provider or the provider [ollama]. *)
Theorem C4_entering_key_stores_it (C : Collaborators) (p : Props) (r : Render)
    (t : string) (nv : JsValue) (h : Refs) (w : Stores) :
  isApiKey r = true ->
  blockType r = Some t ->
  t <> "" ->
  truthy nv = true ->
  Str.trim (toString nv) <> "" ->
  isEqual (valueRef h) nv = false ->
  let st := subBlockStore w in
  let st' := subBlockStore (snd (setValue p r nv (h, w))) in
  SubBlockStore.isParamCleared st' (blockId p) "apiKey" = false /\
  SubBlockStore.toolParams st' =
    if providerBased (Some t) && truthy (modelValue r) then
      match usableProvider (modelValue r) with
      | Some provider =>
          <[(provider, "apiKey") := toString nv]> (SubBlockStore.toolParams st)
      | None => SubBlockStore.toolParams st
      end
    else <[(t, "apiKey") := toString nv]> (SubBlockStore.toolParams st).
Proof.
  intros Hkey Htype Ht Hnv Hs Hne st st'. subst st st'.
  destruct (setValue_subBlockStore p r nv h w Hne) as [copy ->].
  assert (Ht' : String.eqb t "" = false) by now apply String.eqb_neq.
  rewrite Hkey, Htype. cbn [knownType andb]. rewrite Ht'. cbn [negb].
  rewrite storeApiKeyValue_storing by assumption. cbv zeta.
  destruct (providerBased (Some t) && truthy (modelValue r));
    [destruct (usableProvider (modelValue r))|];
    (split; [apply isParamCleared_unmark | reflexivity]).
Qed.

(** Entering a key on a cleared agent block with a [gpt-4o] model: the flag
    goes and the key is stored under [openai], not under [agent]. *)
Lemma C4_witness :
  let p := Sample.apiKeyOf "a1" in
  let sub := SubBlockStore.markParamAsCleared "a1" "apiKey"
               (SubBlockStore.setValue "a1" "model" (VString "gpt-4o")
                  Sample.emptySubBlockStore) in
  let m := Sample.mounted p (Sample.stores sub true) in
  let r := fst m in
  let h := fst (snd m) in
  let w := snd (snd m) in
  let st' := subBlockStore
               (snd (setValue (H := Sample.collaborators) p r (VString "sk-new") (h, w))) in
  SubBlockStore.isParamCleared (subBlockStore w) "a1" "apiKey" = true /\
  SubBlockStore.isParamCleared st' "a1" "apiKey" = false /\
  SubBlockStore.toolParams st' !! ("openai", "apiKey") = Some "sk-new" /\
  SubBlockStore.toolParams st' !! ("agent", "apiKey") = None.
Proof.
  intros p sub m r h w st'.
  assert (Hne : "agent" <> "") by discriminate.
  assert (Hs : Str.trim (toString (VString "sk-new")) <> "") by discriminate.
  destruct (C4_entering_key_stores_it Sample.collaborators p r "agent" (VString "sk-new")
              h w eq_refl eq_refl Hne eq_refl Hs eq_refl) as [Hcleared Hparams].
  split; [reflexivity|]. split; [exact Hcleared|].
  subst st'. rewrite Hparams. split; reflexivity.
Defined.

(** C4 as stated fails: on an agent block whose selected model belongs to
    [ollama], entering a key stores it nowhere, not under the block type
    either. *)
Lemma C4_counterexample :
  let p := Sample.apiKeyOf "a1" in
  let sub := SubBlockStore.setValue "a1" "model" (VString "llama3")
               Sample.emptySubBlockStore in
  let m := Sample.mounted p (Sample.stores sub true) in
  let r := fst m in
  let st' := subBlockStore
               (snd (setValue (H := Sample.collaborators) p r (VString "sk-new") (snd m))) in
  isApiKey r = true /\
  blockType r = Some "agent" /\
  modelValue r = VString "llama3" /\
  getProviderFromModel (Collaborators := Sample.collaborators) "llama3" = Some "ollama" /\
  isEqual (valueRef (fst (snd m))) (VString "sk-new") = false /\
  SubBlockStore.getValue st' "a1" "apiKey" = VString "sk-new" /\
  SubBlockStore.toolParams st' !! ("agent", "apiKey") = None /\
  SubBlockStore.toolParams st' = ∅.
Proof. repeat split. Qed.

(** ** The effects on an API-key field *)

Section EffectFacts.

Context `{Collaborators}.

Lemma usableProvider_Some (m provider : string) :
  getProviderFromModel m = Some provider ->
  provider <> "" -> provider <> "ollama" ->
  usableProvider (VString m) = Some provider.
Proof.
  intros Hp H1%String.eqb_neq H2%String.eqb_neq. cbn. now rewrite Hp, H1, H2.
Qed.

Lemma usableProvider_None (m : string) :
  getProviderFromModel m = None \/ getProviderFromModel m = Some "" \/
  getProviderFromModel m = Some "ollama" ->
  usableProvider (VString m) = None.
Proof. intros [Hp|[Hp|Hp]]; cbn; now rewrite Hp. Qed.

Lemma withSubBlockStore_same (f : SubBlockStore.State -> SubBlockStore.State) (w : Stores) :
  f (subBlockStore w) = subBlockStore w -> withSubBlockStore f w = w.
Proof. destruct w. unfold withSubBlockStore. cbn. now intros ->. Qed.

Lemma getValue_setValue (b f : string) (v : JsValue) (st : SubBlockStore.State) :
  SubBlockStore.getValue (SubBlockStore.setValue b f v st) b f = v.
Proof.
  unfold SubBlockStore.getValue, SubBlockStore.setValue. cbn.
  now rewrite lookup_insert_eq.
Qed.

End EffectFacts.

(** C1, as amended.  On an API-key field of a provider-routed block, when the
    selected model changes to the string [m], the model-change effect records
    [m] as the model seen and
    - if [m] is not empty and its provider is resolved and is not [ollama]:
      sets the field to the key stored for that provider when that key is not
      empty and auto-fill is enabled, and to the empty string otherwise;
    - if [m] is empty, has no provider or has the provider [ollama]: writes
      nothing, and the stores are as before. *)
Theorem C1_model_change (C : Collaborators) (p : Props) (r : Render) (m : string)
    (h : Refs) (w : Stores) :
  isApiKey r = true ->
  isProviderBasedBlock r = true ->
  modelValue r = VString m ->
  strictEq (VString m) (prevModelRef h) = false ->
  let hw' := modelChangeEffect p r (h, w) in
  let field := SubBlockStore.getValue (subBlockStore (snd hw')) (blockId p) (subBlockId p) in
  prevModelRef (fst hw') = VString m /\
  (forall provider,
     m <> "" -> getProviderFromModel m = Some provider ->
     provider <> "" -> provider <> "ollama" ->
     let saved := resolveToolParamValue (subBlockStore w) provider "apiKey" (blockId p) in
     (forall key, saved = Some key -> key <> "" -> isAutoFillEnvVarsEnabled r = true ->
        field = VString key) /\
     (saved = None \/ saved = Some "" \/ isAutoFillEnvVarsEnabled r = false ->
        field = VString "")) /\
  (m = "" \/ getProviderFromModel m = None \/ getProviderFromModel m = Some "" \/
   getProviderFromModel m = Some "ollama" ->
     snd hw' = w).
Proof.
  intros Hkey Hpb Hm Hchg hw' field. subst hw' field.
  unfold modelChangeEffect. rewrite Hkey, Hpb, Hm, Hchg. cbn [negb orb truthy].
  split; [|split].
  - destruct (negb (m =? "")%string); [destruct (usableProvider _)|];
      [destruct (nonEmpty _ && _)| |]; reflexivity.
  - intros provider Hne Hp Hp1 Hp2.
    apply String.eqb_neq in Hne. rewrite Hne. cbn [negb].
    rewrite (usableProvider_Some m provider Hp Hp1 Hp2).
    set (saved := resolveToolParamValue _ _ _ _).
    split.
    + intros key Hs Hk%String.eqb_neq Hauto.
      rewrite Hs, Hauto. cbn [nonEmpty ofNullable]. rewrite Hk. cbn.
      apply getValue_setValue.
    + intros Hcase.
      assert (Hno : nonEmpty saved && isAutoFillEnvVarsEnabled r = false).
      { destruct Hcase as [Hs|[Hs|Ha]]; rewrite ?Hs, ?Ha; try reflexivity.
        apply andb_false_r. }
      rewrite Hno. cbn. apply getValue_setValue.
  - intros [->|Hp]; [reflexivity|].
    rewrite (usableProvider_None m Hp). now destruct (negb (m =? "")%string).
Qed.

(** Switching an agent block from [gpt-4o] to [claude-3] with a key stored
    for [anthropic]: the field takes that key. *)
Lemma C1_witness :
  let p := Sample.apiKeyOf "a1" in
  let sub := SubBlockStore.setToolParam "anthropic" "apiKey" "sk-ant"
               (SubBlockStore.setValue "a1" "apiKey" (VString "sk-oai")
                  (SubBlockStore.setValue "a1" "model" (VString "claude-3")
                     Sample.emptySubBlockStore)) in
  let w := Sample.stores sub true in
  let r := useSubBlockValue p w in
  let h := {| valueRef := VString "sk-oai"; prevModelRef := VString "gpt-4o" |} in
  SubBlockStore.getValue
    (subBlockStore (snd (modelChangeEffect (H := Sample.collaborators) p r (h, w))))
    "a1" "apiKey" = VString "sk-ant".
Proof.
  intros p sub w r h.
  destruct (C1_model_change Sample.collaborators p r "claude-3" h w
              eq_refl eq_refl eq_refl eq_refl) as (_ & Hfill & _).
  assert (H1 : "claude-3" <> "") by discriminate.
  assert (H2 : "anthropic" <> "") by discriminate.
  assert (H3 : "anthropic" <> "ollama") by discriminate.
  assert (H4 : "sk-ant" <> "") by discriminate.
  exact (proj1 (Hfill "anthropic" H1 eq_refl H2 H3) "sk-ant" eq_refl H4 eq_refl).
Defined.

(** C1 as stated fails: when the model of an agent block changes from
    [gpt-4o] to [llama3], whose provider is [ollama], the effect returns
    before any write and the field keeps the key it held; the whole round of
    effects of that render leaves it too. *)
Lemma C1_counterexample :
  let p := Sample.apiKeyOf "a1" in
  let sub := SubBlockStore.setValue "a1" "apiKey" (VString "sk-oai")
               (SubBlockStore.setValue "a1" "model" (VString "llama3")
                  Sample.emptySubBlockStore) in
  let w := Sample.stores sub true in
  let r := useSubBlockValue p w in
  let h := {| valueRef := VString "sk-oai"; prevModelRef := VString "gpt-4o" |} in
  isApiKey r = true /\
  blockType r = Some "agent" /\
  modelValue r = VString "llama3" /\
  strictEq (modelValue r) (prevModelRef h) = false /\
  getProviderFromModel (Collaborators := Sample.collaborators) "llama3" = Some "ollama" /\
  SubBlockStore.getValue
    (subBlockStore (snd (modelChangeEffect (H := Sample.collaborators) p r (h, w))))
    "a1" "apiKey" = VString "sk-oai" /\
  SubBlockStore.getValue
    (subBlockStore
       (snd (updateEffects (H := Sample.collaborators) p r true true true (h, w))))
    "a1" "apiKey" = VString "sk-oai" /\
  VString "sk-oai" <> VString "".
Proof. repeat split. discriminate. Qed.

Section AutoFillFacts.

Context `{Collaborators}.

Lemma strictEq_VString (k : string) (v : JsValue) :
  strictEq (VString k) v = true <-> v = VString k.
Proof.
  destruct v as [| |b|n|s|r xs|r ps]; cbn; try (split; discriminate).
  rewrite String.eqb_eq. split; [now intros ->|now intros [= ->]].
Qed.

Lemma hasValue_false (v : JsValue) :
  negb (truthy v) || strictEq v (VString "") = negb (hasValue v).
Proof. unfold hasValue. now destruct (truthy v), (strictEq v (VString "")). Qed.

Lemma hasValue_VString (k : string) : k <> "" -> hasValue (VString k) = true.
Proof. intros Hk%String.eqb_neq. unfold hasValue. cbn. now rewrite Hk. Qed.

Lemma handleProviderBasedApiKey_frame (b f : string) (m sv : JsValue)
    (st : SubBlockStore.State) :
  let st' := handleProviderBasedApiKey b f m sv st in
  SubBlockStore.toolParams st' = SubBlockStore.toolParams st /\
  SubBlockStore.clearedParams st' = SubBlockStore.clearedParams st.
Proof.
  unfold handleProviderBasedApiKey.
  destruct (negb (truthy m)); [now split|].
  destruct (usableProvider m); [|now split].
  destruct (nonEmpty _); now split.
Qed.

Lemma handleStandardBlockApiKey_frame (b f : string) (bt : option string) (sv : JsValue)
    (st : SubBlockStore.State) :
  let st' := handleStandardBlockApiKey b f bt sv st in
  SubBlockStore.toolParams st' = SubBlockStore.toolParams st /\
  SubBlockStore.clearedParams st' = SubBlockStore.clearedParams st.
Proof.
  unfold handleStandardBlockApiKey.
  repeat (match goal with
          | |- context [if ?c then _ else _] => destruct c
          | |- context [match ?o with Some _ => _ | None => _ end] => destruct o
          end; try (now split)).
Qed.

(** The standard helper on an empty field. *)
Lemma handleStandardBlockApiKey_empty (b f t : string) (sv : JsValue)
    (st : SubBlockStore.State) :
  String.eqb t "" = false -> hasValue sv = false ->
  handleStandardBlockApiKey b f (Some t) sv st =
  match resolveToolParamValue st t "apiKey" b with
  | Some key => if String.eqb key "" then st
                else SubBlockStore.setValue b f (VString key) st
  | None => st
  end.
Proof.
  intros Ht Hsv. unfold handleStandardBlockApiKey.
  rewrite Ht, hasValue_false, Hsv. cbn [negb].
  destruct (resolveToolParamValue st t "apiKey" b) as [key|]; [|reflexivity].
  cbn [nonEmpty ofNullable].
  destruct (String.eqb_spec key "") as [->|Hk]; [reflexivity|]. cbn [negb andb].
  destruct (strictEq (VString key) sv) eqn:Heq; [|reflexivity].
  apply strictEq_VString in Heq. subst sv.
  now rewrite hasValue_VString in Hsv.
Qed.

(** The standard helper on a field that holds a value. *)
Lemma handleStandardBlockApiKey_held (b f t : string) (sv : JsValue)
    (st : SubBlockStore.State) :
  String.eqb t "" = false -> hasValue sv = true ->
  handleStandardBlockApiKey b f (Some t) sv st =
  if isEnvVarReference sv then
    match resolveToolParamValue st t "apiKey" b with
    | Some key => if String.eqb key "" || strictEq (VString key) sv then st
                  else SubBlockStore.setValue b f (VString key) st
    | None => st
    end
  else st.
Proof.
  intros Ht Hsv. unfold handleStandardBlockApiKey.
  rewrite Ht, hasValue_false, Hsv. cbn [negb].
  apply andb_true_iff in Hsv as [Htruthy _]. rewrite Htruthy. cbn [andb].
  destruct (isEnvVarReference sv); [|reflexivity].
  destruct (resolveToolParamValue st t "apiKey" b) as [key|]; cbn [ofNullable].
  - destruct (strictEq (VString key) sv); [now rewrite orb_true_r|].
    cbn [negb truthy]. rewrite orb_false_r. now destruct (String.eqb key "").
  - now destruct (strictEq VNull sv).
Qed.

End AutoFillFacts.

(** C2, as amended.  The auto-fill effect, with auto-fill enabled, on an
    API-key field.
    - Provider-based block with a selected model whose provider is resolved
      and is not [ollama]: the field is set to the value stored for the
      provider when that value is not empty, and to the empty string when
      there is none, whatever the field held.
    - Provider-based block with no model, no provider or [ollama]: no write.
    - Other block of known type [t]: an empty field is set to the non-empty
      value stored for [t]; a field holding an environment-variable reference
      is set to the non-empty value resolved for [t] when the two differ; in
      every other case, and for an unknown type, no write.
    The effect never touches the stored parameters, the cleared flags or the
    Workflow store. *)
Theorem C2_auto_fill_on_mount (C : Collaborators) (p : Props) (r : Render) (w : Stores) :
  isAutoFillEnvVarsEnabled r = true ->
  isApiKey r = true ->
  let st := subBlockStore w in
  let w' := autoFillEffect p r w in
  let field := SubBlockStore.getValue (subBlockStore w') (blockId p) (subBlockId p) in
  (isProviderBasedBlock r = true ->
     (forall provider,
        truthy (modelValue r) = true ->
        usableProvider (modelValue r) = Some provider ->
        (forall key,
           resolveToolParamValue st provider "apiKey" (blockId p) = Some key ->
           key <> "" -> field = VString key) /\
        (resolveToolParamValue st provider "apiKey" (blockId p) = None \/
         resolveToolParamValue st provider "apiKey" (blockId p) = Some "" ->
           field = VString "")) /\
     (truthy (modelValue r) = false \/ usableProvider (modelValue r) = None -> w' = w)) /\
  (isProviderBasedBlock r = false ->
     (knownType (blockType r) = false -> w' = w) /\
     (forall t, blockType r = Some t -> t <> "" ->
        (hasValue (storeValue r) = false ->
           (forall key,
              resolveToolParamValue st t "apiKey" (blockId p) = Some key ->
              key <> "" -> field = VString key) /\
           (resolveToolParamValue st t "apiKey" (blockId p) = None \/
            resolveToolParamValue st t "apiKey" (blockId p) = Some "" -> w' = w)) /\
        (hasValue (storeValue r) = true ->
           (isEnvVarReference (storeValue r) = true ->
              (forall key,
                 resolveToolParamValue st t "apiKey" (blockId p) = Some key ->
                 key <> "" -> storeValue r <> VString key -> field = VString key) /\
              (resolveToolParamValue st t "apiKey" (blockId p) = None \/
               resolveToolParamValue st t "apiKey" (blockId p) = Some "" \/
               (exists key,
                  resolveToolParamValue st t "apiKey" (blockId p) = Some key /\
                  storeValue r = VString key) -> w' = w)) /\
           (isEnvVarReference (storeValue r) = false -> w' = w)))) /\
  SubBlockStore.toolParams (subBlockStore w') = SubBlockStore.toolParams st /\
  SubBlockStore.clearedParams (subBlockStore w') = SubBlockStore.clearedParams st /\
  workflowStore w' = workflowStore w.
Proof.
  intros Hauto Hkey st w' field. subst st w' field.
  unfold autoFillEffect. rewrite Hauto, Hkey. cbn [negb].
  split; [|split].
  - intros Hpb. rewrite Hpb. split.
    + intros provider Hm Hp. cbn [withSubBlockStore subBlockStore].
      unfold handleProviderBasedApiKey. rewrite Hm, Hp. cbn [negb]. split.
      * intros key Hs Hk%String.eqb_neq. rewrite Hs. cbn [nonEmpty ofNullable].
        rewrite Hk. cbn [negb]. apply getValue_setValue.
      * intros [Hs|Hs]; rewrite Hs; cbn [nonEmpty String.eqb negb];
          apply getValue_setValue.
    + intros [Hm|Hp]; apply withSubBlockStore_same; unfold handleProviderBasedApiKey.
      * now rewrite Hm.
      * rewrite Hp. now destruct (negb (truthy (modelValue r))).
  - intros Hpb. rewrite Hpb. split.
    + intros Hunknown. apply withSubBlockStore_same.
      destruct (blockType r) as [t|]; [|reflexivity].
      cbn in Hunknown |- *. apply negb_false_iff in Hunknown. now rewrite Hunknown.
    + intros t Ht Hne%String.eqb_neq. rewrite Ht. split.
      * intros Hsv. split.
        -- intros key Hs Hk%String.eqb_neq. cbn [withSubBlockStore subBlockStore].
           rewrite handleStandardBlockApiKey_empty, Hs, Hk by assumption.
           apply getValue_setValue.
        -- intros Hs. apply withSubBlockStore_same.
           rewrite handleStandardBlockApiKey_empty by assumption.
           now destruct Hs as [-> | ->].
      * intros Hsv. split.
        -- intros Href. split.
           ++ intros key Hs Hk%String.eqb_neq Hdiff. cbn [withSubBlockStore subBlockStore].
              rewrite handleStandardBlockApiKey_held, Href, Hs, Hk by assumption.
              destruct (strictEq (VString key) (storeValue r)) eqn:Heq.
              ** apply strictEq_VString in Heq. contradiction.
              ** apply getValue_setValue.
           ++ intros Hs. apply withSubBlockStore_same.
              rewrite handleStandardBlockApiKey_held, Href by assumption.
              destruct Hs as [-> | [-> | (key & -> & Hsame)]]; try reflexivity.
              rewrite (proj2 (strictEq_VString key (storeValue r)) Hsame).
              now rewrite orb_true_r.
        -- intros Href. apply withSubBlockStore_same.
           now rewrite handleStandardBlockApiKey_held, Href by assumption.
  - destruct (isProviderBasedBlock r); cbn [withSubBlockStore subBlockStore workflowStore].
    + destruct (handleProviderBasedApiKey_frame (blockId p) (subBlockId p)
                  (modelValue r) (storeValue r) (subBlockStore w)) as [H1 H2].
      now rewrite H1, H2.
    + destruct (handleStandardBlockApiKey_frame (blockId p) (subBlockId p)
                  (blockType r) (storeValue r) (subBlockStore w)) as [H1 H2].
      now rewrite H1, H2.
Qed.

(** An empty key field of the Snowflake block takes the stored key. *)
Lemma C2_witness :
  let p := Sample.apiKeyOf "s1" in
  let sub := SubBlockStore.setToolParam "snowflake" "apiKey" "sf-key"
               Sample.emptySubBlockStore in
  let w := Sample.stores sub true in
  let r := useSubBlockValue p w in
  SubBlockStore.getValue
    (subBlockStore (autoFillEffect (H := Sample.collaborators) p r w)) "s1" "apiKey"
  = VString "sf-key".
Proof.
  intros p sub w r.
  destruct (C2_auto_fill_on_mount Sample.collaborators p r w eq_refl eq_refl)
    as (_ & Hstd & _).
  assert (H1 : "snowflake" <> "") by discriminate.
  assert (H2 : "sf-key" <> "") by discriminate.
  destruct (Hstd eq_refl) as [_ Hknown].
  destruct (Hknown "snowflake" eq_refl H1) as [Hempty _].
  exact (proj1 (Hempty eq_refl) "sf-key" eq_refl H2).
Defined.

(** C2 as stated fails: on an agent block with a key stored for the provider
    of its model, the effect overwrites a field that is not empty; and with
    no stored key it writes the empty string over what the field held. *)
Lemma C2_counterexample :
  let p := Sample.apiKeyOf "a1" in
  let typed := SubBlockStore.setValue "a1" "apiKey" (VString "sk-typed")
                 (SubBlockStore.setValue "a1" "model" (VString "gpt-4o")
                    Sample.emptySubBlockStore) in
  let w1 := Sample.stores (SubBlockStore.setToolParam "openai" "apiKey" "sk-saved" typed) true in
  let w2 := Sample.stores typed true in
  let after w :=
    SubBlockStore.getValue
      (subBlockStore (autoFillEffect (H := Sample.collaborators) p (useSubBlockValue p w) w))
      "a1" "apiKey" in
  isAutoFillEnvVarsEnabled (useSubBlockValue p w1) = true /\
  isApiKey (useSubBlockValue p w1) = true /\
  storeValue (useSubBlockValue p w1) = VString "sk-typed" /\
  after w1 = VString "sk-saved" /\
  resolveToolParamValue (Collaborators := Sample.collaborators)
    (subBlockStore w2) "openai" "apiKey" "a1" = None /\
  storeValue (useSubBlockValue p w2) = VString "sk-typed" /\
  after w2 = VString "".
Proof. repeat split. Qed.

(** ** The JSON copy *)

Section JsonCopyFacts.

(** The loops written inside [isEqual], [jsonCopy], [identities] and
    [jsonData] are the named ones. *)
Lemma isEqual_VArray (r r' : ref) (xs ys : list JsValue) :
  isEqual (VArray r xs) (VArray r' ys) = (r =? r')%N || isEqualItems xs ys.
Proof. reflexivity. Qed.

Lemma isEqual_VObject (r r' : ref) (ps qs : list (string * JsValue)) :
  isEqual (VObject r ps) (VObject r' qs) =
  (r =? r')%N || (Nat.eqb (length ps) (length qs) && isEqualProps qs ps).
Proof.
  cbn [isEqual strictEq]. do 2 f_equal.
  induction ps as [|[k x] ps IH]; [reflexivity|].
  cbn [isEqualProps]. now rewrite <- IH.
Qed.

Lemma jsonCopy_VArray (r : ref) (xs : list JsValue) (n : ref) :
  jsonCopy (VArray r xs) n =
  (Some (VArray n (fst (jsonCopyItems xs (n + 1)))), snd (jsonCopyItems xs (n + 1))).
Proof.
  change (jsonCopy (VArray r xs) n)
    with (let '(xs', n') := jsonCopyItems xs (n + 1) in (Some (VArray n xs'), n')).
  now destruct (jsonCopyItems xs (n + 1)).
Qed.

Lemma jsonCopy_VObject (r : ref) (ps : list (string * JsValue)) (n : ref) :
  jsonCopy (VObject r ps) n =
  (Some (VObject n (fst (jsonCopyProps ps (n + 1)))), snd (jsonCopyProps ps (n + 1))).
Proof.
  change (jsonCopy (VObject r ps) n)
    with (let '(ps', n') := jsonCopyProps ps (n + 1) in (Some (VObject n ps'), n')).
  now destruct (jsonCopyProps ps (n + 1)).
Qed.

Lemma identities_VArray (r : ref) (xs : list JsValue) :
  identities (VArray r xs) = r :: flat_map identities xs.
Proof. reflexivity. Qed.

Lemma identities_VObject (r : ref) (ps : list (string * JsValue)) :
  identities (VObject r ps) = r :: flat_map (fun kx => identities (snd kx)) ps.
Proof.
  cbn [identities]. f_equal.
  induction ps as [|[k x] ps IH]; [reflexivity|]. cbn [flat_map snd]. now rewrite <- IH.
Qed.

Lemma jsonData_VArray (r : ref) (xs : list JsValue) :
  jsonData (VArray r xs) = forallb jsonData xs.
Proof. reflexivity. Qed.

Lemma jsonData_VObject (r : ref) (ps : list (string * JsValue)) :
  jsonData (VObject r ps) = distinctKeys ps && forallb (fun kx => jsonData (snd kx)) ps.
Proof.
  cbn [jsonData]. f_equal.
  induction ps as [|[k x] ps IH]; [reflexivity|]. cbn [forallb snd]. now rewrite <- IH.
Qed.

Lemma freshBetween_widen (n m n' m' : ref) (ids : list ref) :
  (m <= n)%N -> (n' <= m')%N ->
  Forall (fun a => (n <= a < n')%N) ids -> Forall (fun a => (m <= a < m')%N) ids.
Proof.
  intros H1 H2 Hids. eapply Forall_impl; [exact Hids|].
  intros a Ha. cbn in Ha |- *. lia.
Qed.

Lemma jsonCopy_fresh (v : JsValue) :
  forall n : ref,
    (n <= snd (jsonCopy v n))%N /\
    forall c, fst (jsonCopy v n) = Some c -> freshBetween n (snd (jsonCopy v n)) c.
Proof.
  unfold freshBetween.
  induction v as [| |b|num|s|r xs IH|r ps IH] using JsValue_nested_ind; intros n.
  1-5: split; [try destruct num; cbn; lia|].
  1-5: intros c Hc; try destruct num; cbn in Hc; try discriminate;
    injection Hc as <-; constructor.
  - rewrite jsonCopy_VArray. cbn [fst snd].
    assert (Hitems : forall k,
      (k <= snd (jsonCopyItems xs k))%N /\
      Forall (fun a => (k <= a < snd (jsonCopyItems xs k))%N)
        (flat_map identities (fst (jsonCopyItems xs k)))).
    { induction IH as [|x xs Hx _ IHxs]; intros k; [cbn; split; [lia|constructor]|].
      cbn [jsonCopyItems]. destruct (Hx k) as [Hle Hfresh].
      destruct (jsonCopy x k) as [ox n1]. cbn [fst snd] in Hle, Hfresh.
      destruct (IHxs n1) as [Hle' Hrest].
      destruct (jsonCopyItems xs n1) as [rest n2]. cbn [fst snd] in *.
      split; [lia|]. cbn [flat_map]. apply Forall_app. split.
      - destruct ox as [c|]; [|constructor].
        apply (freshBetween_widen k k n1 n2); [lia|lia|now apply Hfresh].
      - apply (freshBetween_widen n1 k n2 n2); [lia|lia|exact Hrest]. }
    destruct (Hitems (n + 1)%N) as [Hle Hfresh]. split; [lia|].
    intros c [= <-]. rewrite identities_VArray. constructor; [lia|].
    eapply (freshBetween_widen (n + 1) n); [| |exact Hfresh]; lia.
  - rewrite jsonCopy_VObject. cbn [fst snd].
    assert (Hprops : forall k,
      (k <= snd (jsonCopyProps ps k))%N /\
      Forall (fun a => (k <= a < snd (jsonCopyProps ps k))%N)
        (flat_map (fun kx => identities (snd kx)) (fst (jsonCopyProps ps k)))).
    { induction IH as [|[key x] ps Hx _ IHps]; intros k; [cbn; split; [lia|constructor]|].
      cbn [jsonCopyProps]. cbn [snd] in Hx. destruct (Hx k) as [Hle Hfresh].
      destruct (jsonCopy x k) as [ox n1]. cbn [fst snd] in Hle, Hfresh.
      destruct (IHps n1) as [Hle' Hrest].
      destruct (jsonCopyProps ps n1) as [rest n2]. cbn [fst snd] in *.
      split; [lia|].
      assert (Hrest' : Forall (fun a => (k <= a < n2)%N)
                         (flat_map (fun kx => identities (snd kx)) rest)).
      { apply (freshBetween_widen n1 k n2 n2); [lia|lia|exact Hrest]. }
      destruct ox as [c|]; [|exact Hrest'].
      cbn [flat_map snd]. apply Forall_app. split; [|exact Hrest'].
      apply (freshBetween_widen k k n1 n2); [lia|lia|now apply Hfresh]. }
    destruct (Hprops (n + 1)%N) as [Hle Hfresh]. split; [lia|].
    intros c [= <-]. rewrite identities_VObject. constructor; [lia|].
    eapply (freshBetween_widen (n + 1) n); [| |exact Hfresh]; lia.
Qed.

(** An array or an object is always copied, to the identity handed out
    first. *)
Lemma jsonRoundTrip_identity (v : JsValue) (a n : ref) :
  identity v = Some a ->
  identity (fst (jsonRoundTrip v n)) = Some n /\
  fst (jsonCopy v n) = Some (fst (jsonRoundTrip v n)) /\
  snd (jsonRoundTrip v n) = snd (jsonCopy v n).
Proof.
  unfold jsonRoundTrip.
  destruct v as [| |b|num|s|r xs|r ps]; try discriminate; intros _.
  - rewrite jsonCopy_VArray. now cbn.
  - rewrite jsonCopy_VObject. now cbn.
Qed.

Lemma getProp_In (k : string) (x : JsValue) (ps : list (string * JsValue)) :
  In (k, x) ps -> exists y, getProp k ps = Some y.
Proof.
  induction ps as [|[k' x'] ps IH]; [intros []|].
  intros [[= -> ->]|Hin]; cbn [getProp].
  - rewrite String.eqb_refl. now exists x.
  - destruct (String.eqb k k'); [now exists x'|auto].
Qed.

Lemma isEqualProps_In (qs ps : list (string * JsValue)) :
  (forall k x, In (k, x) ps -> exists y, getProp k qs = Some y /\ isEqual x y = true) ->
  isEqualProps qs ps = true.
Proof.
  induction ps as [|[k x] ps IH]; intros Hall; [reflexivity|].
  cbn [isEqualProps].
  destruct (Hall k x) as (y & -> & ->); [now left|].
  apply IH. intros k' x' Hin. apply Hall. now right.
Qed.

(** Corresponding properties of an object and of its copy: same key, values
    deep-equal both ways. *)
Lemma props_related (ps qs : list (string * JsValue)) :
  Forall2 (fun kx ky => fst kx = fst ky /\
                        isEqual (snd kx) (snd ky) = true /\
                        isEqual (snd ky) (snd kx) = true) ps qs ->
  distinctKeys ps = true ->
  (forall k x, In (k, x) ps -> exists y, getProp k qs = Some y /\ isEqual x y = true) /\
  (forall k y, In (k, y) qs -> exists x, getProp k ps = Some x /\ isEqual y x = true).
Proof.
  induction 1 as [|[k x] [k' y] ps qs (Hk & Hxy & Hyx) _ IHrest]; intros Hkeys.
  { split; intros ? ? []. }
  cbn [fst snd] in Hk, Hxy, Hyx. subst k'. cbn [distinctKeys] in Hkeys.
  destruct (getProp k ps) eqn:Hfree; [discriminate|].
  destruct (IHrest Hkeys) as [IH1 IH2]. split.
  - intros k1 x1 [[= -> ->]|Hin]; cbn [getProp].
    + rewrite String.eqb_refl. now exists y.
    + destruct (String.eqb_spec k1 k) as [->|_]; [|now apply IH1].
      apply getProp_In in Hin as [y1 Hy1]. congruence.
  - intros k1 y1 [[= -> ->]|Hin]; cbn [getProp].
    + rewrite String.eqb_refl. now exists x.
    + destruct (String.eqb_spec k1 k) as [->|_]; [|now apply IH2].
      destruct (IH2 _ _ Hin) as (x1 & Hx1 & _). congruence.
Qed.

(** The copy of JSON data is deep-equal to the original, whichever of the two
    is given first to [isEqual]. *)
Lemma jsonCopy_isEqual (v : JsValue) :
  jsonData v = true ->
  forall n : ref,
    exists c, fst (jsonCopy v n) = Some c /\ isEqual v c = true /\ isEqual c v = true.
Proof.
  induction v as [| |b|num|s|r xs IH|r ps IH] using JsValue_nested_ind; intros Hdata n.
  - discriminate.
  - now exists VNull.
  - exists (VBoolean b). repeat split; apply isEqual_refl.
  - destruct num; try discriminate.
    exists (VNumber (Finite z)). repeat split; apply isEqual_refl.
  - exists (VString s). repeat split; apply isEqual_refl.
  - rewrite jsonCopy_VArray. eexists. split; [reflexivity|].
    rewrite !isEqual_VArray. rewrite jsonData_VArray in Hdata. cbn [fst].
    assert (Hitems : forall k,
      isEqualItems xs (fst (jsonCopyItems xs k)) = true /\
      isEqualItems (fst (jsonCopyItems xs k)) xs = true).
    { induction IH as [|x xs Hx _ IHxs]; intros k; [now split|].
      cbn [forallb] in Hdata. apply andb_true_iff in Hdata as [Hd Hds].
      cbn [jsonCopyItems]. destruct (Hx Hd k) as (c & Hc & Heq & Heq').
      destruct (jsonCopy x k) as [ox n1]. cbn [fst] in Hc. subst ox.
      destruct (IHxs Hds n1) as [IH1 IH2]. destruct (jsonCopyItems xs n1) as [rest n2].
      cbn [fst default from_option id isEqualItems] in *.
      now rewrite Heq, Heq', IH1, IH2. }
    destruct (Hitems (n + 1)%N) as [-> ->]. now rewrite !orb_true_r.
  - rewrite jsonCopy_VObject. eexists. split; [reflexivity|].
    rewrite !isEqual_VObject. rewrite jsonData_VObject in Hdata.
    apply andb_true_iff in Hdata as [Hkeys Hdata]. cbn [fst].
    assert (Hcopy : forall k,
      Forall2 (fun kx ky => fst kx = fst ky /\
                            isEqual (snd kx) (snd ky) = true /\
                            isEqual (snd ky) (snd kx) = true)
        ps (fst (jsonCopyProps ps k))).
    { clear Hkeys. induction IH as [|[key x] ps Hx _ IHps]; intros k; [constructor|].
      cbn [forallb snd] in Hdata, Hx. apply andb_true_iff in Hdata as [Hd Hds].
      cbn [jsonCopyProps]. destruct (Hx Hd k) as (c & Hc & Heq & Heq').
      destruct (jsonCopy x k) as [ox n1]. cbn [fst] in Hc. subst ox.
      specialize (IHps Hds n1). destruct (jsonCopyProps ps n1) as [rest n2].
      cbn [fst] in *. constructor; [now repeat split|exact IHps]. }
    specialize (Hcopy (n + 1)%N). revert Hcopy.
    generalize (fst (jsonCopyProps ps (n + 1)%N)) as qs. clear IH Hdata. intros qs Hcopy.
    destruct (props_related ps qs Hcopy Hkeys) as [H1 H2].
    pose proof (Forall2_length _ _ _ Hcopy) as Hlen.
    rewrite (isEqualProps_In qs ps H1), (isEqualProps_In ps qs H2).
    rewrite <- Hlen, Nat.eqb_refl. now rewrite !orb_true_r.
Qed.

End JsonCopyFacts.

(** ** The round trip through the setter *)

Section RoundTripFacts.

Context `{Collaborators}.

(** What the setter writes into the field. *)
Lemma setValue_stored (p : Props) (r : Render) (nv : JsValue) (h : Refs) (w : Stores) :
  isEqual (valueRef h) nv = false ->
  SubBlockStore.getValue (subBlockStore (snd (setValue p r nv (h, w))))
    (blockId p) (subBlockId p) =
  fst (if strictEq nv VNull then (VNull, nextRef w)
       else if typeofObject nv then jsonRoundTrip nv (nextRef w)
       else (nv, nextRef w)).
Proof.
  intros Hne. unfold setValue. rewrite Hne.
  destruct (if strictEq nv VNull then _ else _) as [copy next].
  destruct (isApiKey r && knownType (blockType r)), (triggerWorkflowUpdate p);
    cbn [snd fst withWorkflowStore withSubBlockStore withNextRef subBlockStore];
    apply getValue_setValue.
Qed.

Lemma setValue_valueRef (p : Props) (r : Render) (nv : JsValue) (h : Refs) (w : Stores) :
  isEqual (valueRef h) nv = false ->
  valueRef (fst (setValue p r nv (h, w))) = nv.
Proof.
  intros Hne. unfold setValue. rewrite Hne.
  now destruct (if strictEq nv VNull then _ else _) as [copy next].
Qed.

Lemma identity_typeofObject (v : JsValue) (a : ref) :
  identity v = Some a -> strictEq v VNull = false /\ typeofObject v = true.
Proof. destruct v; try discriminate; now split. Qed.

Lemma strictEq_identity (u v : JsValue) (a b : ref) :
  identity u = Some a -> identity v = Some b -> a <> b -> strictEq u v = false.
Proof.
  destruct u, v; try discriminate; intros [= ->] [= ->] Hab; cbn;
    try reflexivity; now apply N.eqb_neq.
Qed.

(** Effects of a render on a field that is not an API key: only the
    synchronisation of the cache can act. *)
Lemma updateEffects_plain_field (p : Props) (r : Render) (c2 c3 c4 : bool)
    (h : Refs) (w : Stores) :
  isApiKey r = false ->
  updateEffects p r c2 c3 c4 (h, w) = (if c4 then syncValueRef r h else h, w).
Proof.
  intros Hkey. unfold updateEffects, autoFillEffect, modelChangeEffect.
  rewrite Hkey. cbn [negb orb].
  destruct (negb (isAutoFillEnvVarsEnabled r)), c2, c3; reflexivity.
Qed.

End RoundTripFacts.




(** ** Absent data *)

(** Plain member access raises exactly on [undefined]; optional chaining
    never does. *)
Lemma member_raises_iff {A B : Type} (base : option A) (get : A -> option B) :
  member base get = Throws <-> base = None.
Proof. destruct base; cbn; split; congruence. Qed.

Lemma optionalMember_returns {A B : Type} (base : option A) (get : A -> option B) :
  optionalMember base get = Returns (base ≫= get).
Proof. now destruct base. Qed.

Section AbsentFacts.

Context `{Collaborators}.

Lemma selectBlock_absent (blockId : string) (st : WorkflowStore.State) :
  blockAbsent blockId st -> selectBlock blockId st = None.
Proof. unfold blockAbsent, selectBlock. now destruct (WorkflowStore.blocks st). Qed.

Lemma setValue_frame (p : Props) (r : Render) (nv : JsValue) (h : Refs) (w : Stores) :
  knownType (blockType r) = false ->
  let w' := snd (setValue p r nv (h, w)) in
  SubBlockStore.toolParams (subBlockStore w') = SubBlockStore.toolParams (subBlockStore w) /\
  SubBlockStore.clearedParams (subBlockStore w') =
    SubBlockStore.clearedParams (subBlockStore w) /\
  WorkflowStore.blocks (workflowStore w') = WorkflowStore.blocks (workflowStore w) /\
  generalStore w' = generalStore w.
Proof.
  intros Hunknown. unfold setValue.
  destruct (isEqual (valueRef h) nv); [now cbn|].
  destruct (if strictEq nv VNull then _ else _) as [copy next].
  rewrite Hunknown, andb_false_r.
  now destruct (triggerWorkflowUpdate p).
Qed.

End AbsentFacts.

(** C8, as amended.  The two lookups of the hook do not raise: evaluated with
    the errors of member access they return, for every store and every pair
    of ids, the block type and the initial value of the render.  For a block
    absent from the Workflow store the block type is [undefined] and the
    initial value [null], and for an absent sub-block of a present block the
    initial value is [null].  On an absent block the credential step of the
    setter and both API-key effects do nothing: stored parameters, cleared
    flags, blocks and settings are as before.  The setter itself is no no-op
    there: called with a value that is not deep-equal to the cached one it
    caches the value, writes it into the field (as its JSON copy when it is
    an array or object) and sends the workflow update when
    [triggerWorkflowUpdate] is set. *)
Theorem C8_absent_data (C : Collaborators) (p : Props) (h : Refs) (w : Stores) :
  let r := useSubBlockValue p w in
  (evalBlockType (blockId p) (workflowStore w) = Returns (blockType r) /\
   evalInitialValue (blockId p) (subBlockId p) (workflowStore w)
   = Returns (initialValue r)) /\
  (blockAbsent (blockId p) (workflowStore w) ->
     blockType r = None /\
     initialValue r = VNull /\
     (forall (m nv sv : JsValue) (st : SubBlockStore.State),
        storeApiKeyValue (blockId p) (blockType r) m nv sv st = st) /\
     autoFillEffect p r w = w /\
     modelChangeEffect p r (h, w) = (h, w) /\
     (forall nv : JsValue,
        let w' := snd (setValue p r nv (h, w)) in
        SubBlockStore.toolParams (subBlockStore w') =
          SubBlockStore.toolParams (subBlockStore w) /\
        SubBlockStore.clearedParams (subBlockStore w') =
          SubBlockStore.clearedParams (subBlockStore w) /\
        WorkflowStore.blocks (workflowStore w') = WorkflowStore.blocks (workflowStore w) /\
        generalStore w' = generalStore w) /\
     (forall nv : JsValue,
        isEqual (valueRef h) nv = false ->
        let hw' := setValue p r nv (h, w) in
        let field :=
          SubBlockStore.getValue (subBlockStore (snd hw')) (blockId p) (subBlockId p) in
        currentValue (fst hw') = nv /\
        (identity nv = None -> field = nv) /\
        (forall a, identity nv = Some a -> field = fst (jsonRoundTrip nv (nextRef w))) /\
        WorkflowStore.updates (workflowStore (snd hw')) =
          WorkflowStore.updates (workflowStore w) +
          (if triggerWorkflowUpdate p then 1 else 0))) /\
  (forall b, selectBlock (blockId p) (workflowStore w) = Some b ->
     subBlockAbsent (subBlockId p) b ->
     blockType r = Some (WorkflowStore.type b) /\ initialValue r = VNull).
Proof.
  intros r. subst r. split; [|split].
  - split.
    + cbn. unfold evalBlockType, selectBlockType, selectBlock. cbn [member andThen].
      destruct (WorkflowStore.blocks (workflowStore w)) as [bs|]; [|reflexivity].
      cbn [optionalMember andThen]. now destruct (bs !! blockId p).
    + cbn. unfold evalInitialValue, selectInitialValue, selectBlock. cbn [member andThen].
      destruct (WorkflowStore.blocks (workflowStore w)) as [bs|]; [|reflexivity].
      cbn [optionalMember andThen]. destruct (bs !! blockId p) as [b|]; [|reflexivity].
      cbn [optionalMember andThen].
      destruct (WorkflowStore.subBlocks b) as [sbs|]; [|reflexivity].
      cbn [optionalMember andThen]. now destruct (sbs !! subBlockId p).
  - intros Habsent%selectBlock_absent.
    assert (Htype : blockType (useSubBlockValue p w) = None).
    { cbn. unfold selectBlockType. now rewrite Habsent. }
    split; [exact Htype|]. split.
    { cbn. unfold selectInitialValue. now rewrite Habsent. }
    split; [now rewrite Htype|]. split; [|split; [|split]].
    + unfold autoFillEffect. cbn [isAutoFillEnvVarsEnabled isApiKey isProviderBasedBlock
        blockType useSubBlockValue]. unfold selectBlockType. rewrite Habsent.
      cbn [providerBased].
      destruct (negb _); [reflexivity|]. destruct (negb _); [reflexivity|].
      now apply withSubBlockStore_same.
    + unfold modelChangeEffect. cbn [isApiKey isProviderBasedBlock useSubBlockValue].
      unfold selectBlockType. rewrite Habsent. cbn [providerBased negb].
      now rewrite orb_true_r.
    + intros nv. apply setValue_frame. now rewrite Htype.
    + intros nv Hne hw' field. subst hw' field.
      split; [now apply setValue_valueRef|].
      rewrite setValue_stored by exact Hne. split; [|split].
      * intros Hprim.
        destruct nv as [| |b|[|neg|z]|s|a xs|a ps]; try discriminate; reflexivity.
      * intros a Ha. now destruct (identity_typeofObject nv a Ha) as [-> ->].
      * unfold setValue. rewrite Hne.
        destruct (if strictEq nv VNull then _ else _) as [copy next].
        destruct (isApiKey _ && knownType _), (triggerWorkflowUpdate p); cbn; lia.
  - intros b Hb Hsub. cbn. unfold selectBlockType, selectInitialValue. rewrite Hb.
    split; [reflexivity|].
    unfold subBlockAbsent in Hsub.
    destruct (WorkflowStore.subBlocks b) as [sbs|]; [now rewrite Hsub|reflexivity].
Qed.

(** A block that is not in the sample workflow, a sub-block missing from a
    block that is, and a value set on the missing block. *)
Lemma C8_witness :
  let p := Sample.apiKeyOf "ghost" in
  let w := Sample.stores
             (SubBlockStore.setToolParam "openai" "apiKey" "sk-saved"
                Sample.emptySubBlockStore) true in
  let r := useSubBlockValue p w in
  let q := Sample.fieldOf "s1" "warehouse" in
  let hw' := setValue (H := Sample.collaborators) p r (VString "x") (freshRefs, w) in
  blockType r = None /\
  initialValue r = VNull /\
  autoFillEffect (H := Sample.collaborators) p r w = w /\
  initialValue (useSubBlockValue q w) = VNull /\
  SubBlockStore.getValue (subBlockStore (snd hw')) "ghost" "apiKey" = VString "x" /\
  WorkflowStore.updates (workflowStore (snd hw')) = 1.
Proof.
  intros p w r q hw'.
  destruct (C8_absent_data Sample.collaborators p freshRefs w) as (_ & Hblock & _).
  destruct (C8_absent_data Sample.collaborators q freshRefs w) as (_ & _ & Hsub).
  assert (Habsent : blockAbsent (blockId p) (workflowStore w)) by reflexivity.
  destruct (Hblock Habsent) as (Htype & Hinit & _ & Hfill & _ & _ & Hset).
  assert (Hsubabsent : subBlockAbsent (subBlockId q)
            {| WorkflowStore.type := "snowflake"; WorkflowStore.subBlocks := None |})
    by exact I.
  destruct (Hsub _ eq_refl Hsubabsent) as [_ Hinit'].
  destruct (Hset (VString "x") eq_refl) as (_ & Hfield & _ & Hupdates).
  pose proof (Hfield eq_refl) as Hwritten.
  repeat split; assumption.
Defined.

(** C8 as stated fails in its last part: for a block absent from the Workflow
    store the setter is not a no-op, it writes the value into the SubBlock
    store and sends the workflow update. *)
Lemma C8_counterexample :
  let p := Sample.fieldOf "ghost" "notes" in
  let m := Sample.mounted p (Sample.stores Sample.emptySubBlockStore true) in
  let hw := snd m in
  let hw' := setValue (H := Sample.collaborators) p (fst m) (VString "x") hw in
  blockAbsent "ghost" (workflowStore (snd hw)) /\
  SubBlockStore.getValue (subBlockStore (snd hw)) "ghost" "notes" = VNull /\
  SubBlockStore.getValue (subBlockStore (snd hw')) "ghost" "notes" = VString "x" /\
  WorkflowStore.updates (workflowStore (snd hw)) = 0 /\
  WorkflowStore.updates (workflowStore (snd hw')) = 1 /\
  hw' <> hw.
Proof. repeat split. discriminate. Qed.


(** * Further properties of the hook *)

(** ** Which fields are API-key fields *)

(** X1. A field is treated as an API-key field exactly when its id contains
    [apikey] up to the case of its letters; the comparison with ['apiKey']
    adds nothing. *)
Theorem X1_isApiKey_iff (p : Props) (w : Stores) :
  isApiKey (useSubBlockValue p w) = true <->
  ToolbarUI.containsIgnoringCase (subBlockId p) "apikey".
Proof.
  rewrite <- includes_toLowerCase.
  change (Str.toLowerCase "apikey") with "apikey".
  cbn [isApiKey useSubBlockValue]. rewrite orb_true_iff. split; [|tauto].
  intros [Heq|Hin]; [|exact Hin].
  apply String.eqb_eq in Heq. now rewrite Heq.
Qed.

(** ** The cache after the effects *)

Section CacheFacts.

Context `{Collaborators}.

Lemma strictEq_VUndefined (v : JsValue) :
  strictEq v VUndefined = true <-> v = VUndefined.
Proof. destruct v as [| |b|[|neg|z]|s|r xs|r ps]; cbn; split; congruence. Qed.

Lemma selectInitialValue_defined (b f : string) (st : WorkflowStore.State) :
  selectInitialValue b f st <> VUndefined.
Proof.
  unfold selectInitialValue.
  destruct (selectBlock b st) as [blk|]; [|discriminate].
  destruct (WorkflowStore.subBlocks blk) as [sbs|]; [|discriminate].
  destruct (sbs !! f) as [sb|]; [|discriminate].
  destruct (WorkflowStore.value sb); discriminate.
Qed.

Lemma mountEffects_valueRef (p : Props) (r : Render) (h : Refs) (w : Stores) :
  valueRef (fst (mountEffects p r (h, w))) =
  if strictEq (storeValue r) VUndefined then initialValue r else storeValue r.
Proof.
  unfold mountEffects.
  pose proof (modelChangeEffect_valueRef p r (initValueRef r h) (autoFillEffect p r w)) as Hm.
  destruct (modelChangeEffect p r _) as [h2 w2]. cbn [fst] in Hm |- *.
  unfold syncValueRef. cbn [initValueRef valueRef] in Hm.
  destruct (negb (isEqual (valueRef h2) (storeValue r)));
    [cbn [valueRef]|rewrite Hm]; now destruct (strictEq (storeValue r) VUndefined).
Qed.

Lemma syncValueRef_isEqual (r : Render) (h : Refs) :
  strictEq (storeValue r) VUndefined = false ->
  isEqual (valueRef (syncValueRef r h)) (storeValue r) = true.
Proof.
  intros Hdef. unfold syncValueRef.
  destruct (isEqual (valueRef h) (storeValue r)) eqn:Heq; cbn [negb valueRef].
  - exact Heq.
  - rewrite Hdef. apply isEqual_refl.
Qed.

End CacheFacts.



(** X3. After a round of effects in which the synchronisation runs, the cache
    is deep-equal to the store value of that render, provided that value is
    not [undefined]; so it is after the effects of the first render. *)
Theorem X3_cache_follows_store (C : Collaborators) (p : Props) (r : Render)
    (h : Refs) (w : Stores) :
  storeValue r <> VUndefined ->
  (forall changed2 changed3 : bool,
     isEqual (valueRef (fst (updateEffects p r changed2 changed3 true (h, w))))
       (storeValue r) = true) /\
  isEqual (valueRef (fst (mountEffects p r (h, w)))) (storeValue r) = true.
Proof.
  intros Hdef.
  assert (Hu : strictEq (storeValue r) VUndefined = false).
  { destruct (strictEq (storeValue r) VUndefined) eqn:Hu; [|reflexivity].
    apply strictEq_VUndefined in Hu. contradiction. }
  split.
  - intros c2 c3. unfold updateEffects.
    destruct (if c3 then _ else _) as [h2 w2]. cbn [fst].
    now apply syncValueRef_isEqual.
  - rewrite mountEffects_valueRef, Hu. apply isEqual_refl.
Qed.

(** A stale cache and a store holding another table: one round brings the
    cache to a value deep-equal to the store's. *)
Lemma X3_witness :
  let stored := VObject 7 [("rows", VArray 8 [VString "y"])] in
  let p := Sample.fieldOf "s1" "table" in
  let w := Sample.stores
             (SubBlockStore.setValue "s1" "table" stored Sample.emptySubBlockStore) true in
  let h := {| valueRef := VObject 1 [("rows", VArray 2 [VString "x"])];
              prevModelRef := VNull |} in
  isEqual
    (valueRef (fst (updateEffects (H := Sample.collaborators) p (useSubBlockValue p w)
                      true true true (h, w))))
    stored = true.
Proof.
  intros stored p w h.
  assert (Hdef : storeValue (useSubBlockValue p w) <> VUndefined) by discriminate.
  exact (proj1 (X3_cache_follows_store Sample.collaborators p (useSubBlockValue p w) h w Hdef)
           true true).
Defined.

(** ** The model-change effect fires once *)

Section ModelChangeFacts.

Context `{Collaborators}.

Lemma strictEq_irrefl_falsy (v : JsValue) : strictEq v v = false -> truthy v = false.
Proof.
  destruct v as [| |b|[|neg|z]|s|r xs|r ps]; cbn; try discriminate; try reflexivity.
  - now destruct b.
  - now destruct neg.
  - now rewrite Z.eqb_refl.
  - now rewrite String.eqb_refl.
  - now rewrite N.eqb_refl.
  - now rewrite N.eqb_refl.
Qed.

(** What the effect leaves in [prevModelRef]: the model of the render when it
    saw a change, the old content otherwise. *)
Lemma modelChangeEffect_prevModelRef (p : Props) (r : Render) (h : Refs) (w : Stores) :
  isApiKey r = true -> isProviderBasedBlock r = true ->
  fst (modelChangeEffect p r (h, w)) =
  if strictEq (modelValue r) (prevModelRef h) then h
  else {| valueRef := valueRef h; prevModelRef := modelValue r |}.
Proof.
  intros Hkey Hpb. unfold modelChangeEffect. rewrite Hkey, Hpb. cbn [negb orb].
  destruct (strictEq (modelValue r) (prevModelRef h)); cbn [negb]; [reflexivity|].
  destruct (truthy (modelValue r)); [|reflexivity].
  destruct (usableProvider (modelValue r)); [|reflexivity].
  now destruct (nonEmpty _ && _).
Qed.

End ModelChangeFacts.

(** X4. The model-change effect reacts to a model once.  After it has run on
    an API-key field of a provider-based block, running it again for any
    render that has the same model value changes neither the refs nor the
    stores, whatever the stores hold by then: a key typed after a model switch
    is not wiped by the re-runs the changed store value causes. *)
Theorem X4_model_change_fires_once (C : Collaborators) (p : Props) (r r' : Render)
    (h : Refs) (w w' : Stores) :
  isApiKey r = true ->
  isProviderBasedBlock r = true ->
  modelValue r' = modelValue r ->
  let h1 := fst (modelChangeEffect p r (h, w)) in
  modelChangeEffect p r' (h1, w') = (h1, w').
Proof.
  intros Hkey Hpb Hmodel h1. subst h1.
  rewrite modelChangeEffect_prevModelRef by assumption.
  unfold modelChangeEffect. rewrite Hmodel.
  destruct (negb (isApiKey r') || negb (isProviderBasedBlock r')); [reflexivity|].
  destruct (strictEq (modelValue r) (prevModelRef h)) eqn:Hsame.
  - rewrite Hsame. reflexivity.
  - cbn [prevModelRef valueRef].
    destruct (strictEq (modelValue r) (modelValue r)) eqn:Hrefl; [reflexivity|].
    cbn [negb]. now rewrite (strictEq_irrefl_falsy _ Hrefl).
Qed.

(** An agent block switched to [claude-3] with nothing stored: the first run
    clears the field, the user types a key, and the second run leaves it. *)
Lemma X4_witness :
  let p := Sample.apiKeyOf "a1" in
  let sub := SubBlockStore.setValue "a1" "apiKey" (VString "sk-oai")
               (SubBlockStore.setValue "a1" "model" (VString "claude-3")
                  Sample.emptySubBlockStore) in
  let w := Sample.stores sub true in
  let r := useSubBlockValue p w in
  let h := {| valueRef := VString "sk-oai"; prevModelRef := VString "gpt-4o" |} in
  let hw1 := modelChangeEffect (H := Sample.collaborators) p r (h, w) in
  let w' := withSubBlockStore
              (SubBlockStore.setValue "a1" "apiKey" (VString "sk-typed")) (snd hw1) in
  SubBlockStore.getValue (subBlockStore (snd hw1)) "a1" "apiKey" = VString "" /\
  modelChangeEffect (H := Sample.collaborators) p (useSubBlockValue p w') (fst hw1, w')
  = (fst hw1, w').
Proof.
  intros p sub w r h hw1 w'. split; [reflexivity|].
  apply (X4_model_change_fires_once Sample.collaborators p r (useSubBlockValue p w') h w w');
    reflexivity.
Defined.

(** ** What the effects leave alone *)

Section FrameFacts.

Context `{Collaborators}.

Lemma writesOnlyField_refl (p : Props) (w : Stores) : writesOnlyField p w w.
Proof. repeat split. Qed.

Lemma writesOnlyField_trans (p : Props) (w1 w2 w3 : Stores) :
  writesOnlyField p w1 w2 -> writesOnlyField p w2 w3 -> writesOnlyField p w1 w3.
Proof.
  intros (A1 & A2 & A3 & A4 & A5 & A6) (B1 & B2 & B3 & B4 & B5 & B6).
  repeat split; try congruence.
  intros k Hk. now rewrite B6, A6.
Qed.

Lemma writesOnlyField_setValue (p : Props) (v : JsValue) (w : Stores) :
  writesOnlyField p w
    (withSubBlockStore (SubBlockStore.setValue (blockId p) (subBlockId p) v) w).
Proof.
  repeat split. intros k Hk. cbn. now apply lookup_insert_ne.
Qed.

(** The two auto-fill helpers return the store as it is or with the field
    of the hook set. *)
Lemma handleProviderBasedApiKey_cases (b f : string) (m sv : JsValue)
    (st : SubBlockStore.State) :
  handleProviderBasedApiKey b f m sv st = st \/
  exists v, handleProviderBasedApiKey b f m sv st = SubBlockStore.setValue b f v st.
Proof.
  unfold handleProviderBasedApiKey.
  destruct (negb (truthy m)); [now left|].
  destruct (usableProvider m); [|now left].
  destruct (nonEmpty _); right; eauto.
Qed.

Lemma handleStandardBlockApiKey_cases (b f : string) (bt : option string) (sv : JsValue)
    (st : SubBlockStore.State) :
  handleStandardBlockApiKey b f bt sv st = st \/
  exists v, handleStandardBlockApiKey b f bt sv st = SubBlockStore.setValue b f v st.
Proof.
  unfold handleStandardBlockApiKey.
  repeat (match goal with
          | |- context [if ?c then _ else _] => destruct c
          | |- context [match ?o with Some _ => _ | None => _ end] => destruct o
          end; try (now left); try (right; eauto; fail)).
Qed.

Lemma writesOnlyField_helper (p : Props) (f : SubBlockStore.State -> SubBlockStore.State)
    (w : Stores) :
  (f (subBlockStore w) = subBlockStore w \/
   exists v, f (subBlockStore w) =
             SubBlockStore.setValue (blockId p) (subBlockId p) v (subBlockStore w)) ->
  writesOnlyField p w (withSubBlockStore f w).
Proof.
  intros [Hsame|[v Hset]].
  - rewrite withSubBlockStore_same by exact Hsame. apply writesOnlyField_refl.
  - unfold withSubBlockStore. rewrite Hset. apply writesOnlyField_setValue.
Qed.

Lemma autoFillEffect_writesOnlyField (p : Props) (r : Render) (w : Stores) :
  writesOnlyField p w (autoFillEffect p r w).
Proof.
  unfold autoFillEffect.
  destruct (negb (isAutoFillEnvVarsEnabled r)); [apply writesOnlyField_refl|].
  destruct (negb (isApiKey r)); [apply writesOnlyField_refl|].
  destruct (isProviderBasedBlock r); apply writesOnlyField_helper.
  - apply handleProviderBasedApiKey_cases.
  - apply handleStandardBlockApiKey_cases.
Qed.

Lemma modelChangeEffect_writesOnlyField (p : Props) (r : Render) (h : Refs) (w : Stores) :
  writesOnlyField p w (snd (modelChangeEffect p r (h, w))).
Proof.
  unfold modelChangeEffect.
  repeat (match goal with
          | |- context [if ?c then _ else _] => destruct c
          | |- context [match ?o with Some _ => _ | None => _ end] => destruct o
          end;
          cbn [snd];
          try apply writesOnlyField_refl;
          try apply writesOnlyField_setValue).
Qed.

Lemma mountEffects_writesOnlyField (p : Props) (r : Render) (h : Refs) (w : Stores) :
  writesOnlyField p w (snd (mountEffects p r (h, w))).
Proof.
  unfold mountEffects.
  pose proof (modelChangeEffect_writesOnlyField p r (initValueRef r h)
                (autoFillEffect p r w)) as Hm.
  destruct (modelChangeEffect p r _) as [h2 w2]. cbn [snd] in Hm |- *.
  eapply writesOnlyField_trans; [apply autoFillEffect_writesOnlyField|exact Hm].
Qed.

Lemma updateEffects_writesOnlyField (p : Props) (r : Render) (h : Refs) (w : Stores)
    (c2 c3 c4 : bool) :
  writesOnlyField p w (snd (updateEffects p r c2 c3 c4 (h, w))).
Proof.
  unfold updateEffects.
  assert (H2 : writesOnlyField p w (if c2 then autoFillEffect p r w else w)).
  { destruct c2; [apply autoFillEffect_writesOnlyField|apply writesOnlyField_refl]. }
  destruct c3.
  - pose proof (modelChangeEffect_writesOnlyField p r h
                  (if c2 then autoFillEffect p r w else w)) as Hm.
    destruct (modelChangeEffect p r _) as [h2 w2]. cbn [snd] in Hm |- *.
    eapply writesOnlyField_trans; [exact H2|exact Hm].
  - exact H2.
Qed.

End FrameFacts.

(** X5. The effects write nothing but the field of the hook.  Through the
    effects of the first render and through any later round, the stored
    parameters and the cleared flags are untouched (a field cleared by a model
    switch is not marked as cleared by the user), no other field value
    changes, and the Workflow store and the settings are as before. *)
Theorem X5_effects_write_only_the_field (C : Collaborators) (p : Props) (r : Render)
    (h : Refs) (w : Stores) :
  writesOnlyField p w (snd (mountEffects p r (h, w))) /\
  forall changed2 changed3 changed4 : bool,
    writesOnlyField p w (snd (updateEffects p r changed2 changed3 changed4 (h, w))).
Proof.
  split; [apply mountEffects_writesOnlyField|].
  intros c2 c3 c4. apply updateEffects_writesOnlyField.
Qed.

(** ** What the setter changes in the stores *)

Section SetterFacts.

Context `{Collaborators}.

Lemma usableProvider_not_ollama (m : JsValue) (provider : string) :
  usableProvider m = Some provider -> provider <> "" /\ provider <> "ollama".
Proof.
  unfold usableProvider. destruct m as [| |b|n|s|r xs|r ps]; try discriminate.
  destruct (getProviderFromModel s) as [q|]; [|discriminate].
  destruct (String.eqb_spec q ""); [discriminate|].
  destruct (String.eqb_spec q "ollama"); [discriminate|].
  cbn. now intros [= <-].
Qed.

(** The three outcomes of [storeApiKeyValue]: nothing, the cleared mark, or
    the flag removed with the value stored under at most one scope. *)
Lemma storeApiKeyValue_cases (b : string) (bt : option string) (m nv sv : JsValue)
    (st : SubBlockStore.State) :
  let st' := storeApiKeyValue b bt m nv sv st in
  st' = st \/
  (hasValue sv = true /\ isBlank nv = true /\
   st' = SubBlockStore.markParamAsCleared b "apiKey" st) \/
  (truthy nv = true /\ Str.trim (toString nv) <> "" /\
   (st' = SubBlockStore.unmarkParamAsCleared b "apiKey" st \/
    exists scope,
      (usableProvider m = Some scope \/ bt = Some scope) /\
      st' = SubBlockStore.setToolParam scope "apiKey" (toString nv)
              (SubBlockStore.unmarkParamAsCleared b "apiKey" st))).
Proof.
  intros st'. subst st'.
  destruct bt as [t|]; [|now left]. cbn [storeApiKeyValue].
  destruct (String.eqb t "") eqn:Ht; [now left|].
  destruct (hasValue sv && isBlank nv) eqn:Hclear.
  { apply andb_true_iff in Hclear as [Hsv Hnv]. right. left. now repeat split. }
  destruct (truthy nv) eqn:Hnv; [|now left]. cbn [negb orb].
  destruct (String.eqb_spec (Str.trim (toString nv)) "") as [|Hs]; [now left|].
  right. right. split; [reflexivity|]. split; [exact Hs|].
  pose proof (storeApiKeyValue_storing b t m nv sv st Ht Hnv Hs) as Hstore.
  cbn [storeApiKeyValue] in Hstore. rewrite Ht, Hclear, Hnv in Hstore. cbn [negb orb] in Hstore.
  destruct (String.eqb_spec (Str.trim (toString nv)) "") as [|_]; [contradiction|].
  rewrite Hstore. cbv zeta.
  destruct (providerBased (Some t) && truthy m).
  - destruct (usableProvider m) as [scope|] eqn:Hp; [|now left].
    right. exists scope. split; [now left|reflexivity].
  - right. exists t. split; [now right|reflexivity].
Qed.

(** The SubBlock store after the setter: as before, or the field written on
    top of what the credential step left. *)
Lemma setValue_store_cases (p : Props) (r : Render) (nv : JsValue) (h : Refs) (w : Stores) :
  let st' := subBlockStore (snd (setValue p r nv (h, w))) in
  (isEqual (valueRef h) nv = true /\ st' = subBlockStore w) \/
  (isEqual (valueRef h) nv = false /\
   exists copy,
     st' = SubBlockStore.setValue (blockId p) (subBlockId p) copy
             (if isApiKey r && knownType (blockType r)
              then storeApiKeyValue (blockId p) (blockType r) (modelValue r) nv
                     (storeValue r) (subBlockStore w)
              else subBlockStore w)).
Proof.
  intros st'. subst st'.
  destruct (isEqual (valueRef h) nv) eqn:Heq.
  - left. split; [reflexivity|]. now rewrite setValue_equal.
  - right. split; [reflexivity|]. now apply setValue_subBlockStore.
Qed.

Lemma setValue_other_stores (p : Props) (r : Render) (nv : JsValue) (h : Refs) (w : Stores) :
  let w' := snd (setValue p r nv (h, w)) in
  WorkflowStore.blocks (workflowStore w') = WorkflowStore.blocks (workflowStore w) /\
  generalStore w' = generalStore w.
Proof.
  unfold setValue.
  destruct (isEqual (valueRef h) nv); [now split|].
  destruct (if strictEq nv VNull then _ else _) as [copy next].
  now destruct (isApiKey r && knownType (blockType r)), (triggerWorkflowUpdate p).
Qed.

End SetterFacts.

(** X6. What the setter leaves alone.  A call of [setValue] changes no field
    value but that of the hook, no cleared flag but that of (blockId,
    [apiKey]), neither the blocks of the Workflow store nor the settings; and
    on a field that is not an API key, or on a block of unknown type, it
    changes neither the stored parameters nor any cleared flag. *)
Theorem X6_setValue_frame (C : Collaborators) (p : Props) (r : Render) (nv : JsValue)
    (h : Refs) (w : Stores) :
  let st := subBlockStore w in
  let w' := snd (setValue p r nv (h, w)) in
  let st' := subBlockStore w' in
  (forall k, k <> (blockId p, subBlockId p) ->
     SubBlockStore.values st' !! k = SubBlockStore.values st !! k) /\
  (forall flag, flag <> (blockId p, "apiKey") ->
     (flag ∈ SubBlockStore.clearedParams st' <-> flag ∈ SubBlockStore.clearedParams st)) /\
  WorkflowStore.blocks (workflowStore w') = WorkflowStore.blocks (workflowStore w) /\
  generalStore w' = generalStore w /\
  (isApiKey r = false \/ knownType (blockType r) = false ->
     SubBlockStore.toolParams st' = SubBlockStore.toolParams st /\
     SubBlockStore.clearedParams st' = SubBlockStore.clearedParams st).
Proof.
  intros st w' st'. subst st w' st'.
  destruct (setValue_other_stores p r nv h w) as [Hblocks Hgeneral].
  destruct (setValue_store_cases p r nv h w) as [[_ ->]|[_ [copy ->]]].
  { repeat split; auto. }
  split; [|split; [|split; [exact Hblocks|split; [exact Hgeneral|]]]].
  - intros k Hk. cbn [SubBlockStore.setValue SubBlockStore.values].
    rewrite lookup_insert_ne by congruence.
    destruct (isApiKey r && knownType (blockType r)); [|reflexivity].
    destruct (storeApiKeyValue_cases (blockId p) (blockType r) (modelValue r) nv
                (storeValue r) (subBlockStore w))
      as [->|[(_ & _ & ->)|(_ & _ & [->|(scope & _ & ->)])]]; reflexivity.
  - intros flag Hflag. cbn [SubBlockStore.setValue SubBlockStore.clearedParams].
    destruct (isApiKey r && knownType (blockType r)); [|reflexivity].
    destruct (storeApiKeyValue_cases (blockId p) (blockType r) (modelValue r) nv
                (storeValue r) (subBlockStore w))
      as [->|[(_ & _ & ->)|(_ & _ & [->|(scope & _ & ->)])]];
      cbn [SubBlockStore.markParamAsCleared SubBlockStore.unmarkParamAsCleared
           SubBlockStore.setToolParam SubBlockStore.clearedParams];
      rewrite ?elem_of_union, ?elem_of_difference, ?elem_of_singleton; tauto.
  - intros Hplain.
    assert (Hoff : isApiKey r && knownType (blockType r) = false).
    { destruct Hplain as [-> | ->]; [reflexivity|apply andb_false_r]. }
    rewrite Hoff. now split.
Qed.

(** Entering a key on the agent block [a1] leaves the key field of the
    Snowflake block and its cleared flag as they were. *)
Lemma X6_witness :
  let p := Sample.apiKeyOf "a1" in
  let sub := SubBlockStore.markParamAsCleared "s1" "apiKey"
               (SubBlockStore.setValue "s1" "apiKey" (VString "sf")
                  Sample.emptySubBlockStore) in
  let w := Sample.stores sub true in
  let st' := subBlockStore
               (snd (setValue (H := Sample.collaborators) p (useSubBlockValue p w)
                       (VString "sk-new") (freshRefs, w))) in
  SubBlockStore.values st' !! ("s1", "apiKey") = Some (VString "sf") /\
  ("s1", "apiKey") ∈ SubBlockStore.clearedParams st'.
Proof.
  intros p sub w st'.
  destruct (X6_setValue_frame Sample.collaborators p (useSubBlockValue p w)
              (VString "sk-new") freshRefs w) as (Hvalues & Hflags & _).
  split.
  - subst st'. rewrite Hvalues by discriminate. reflexivity.
  - apply Hflags; [discriminate|]. cbn. apply elem_of_union_l, elem_of_singleton.
    reflexivity.
Defined.

(** X7. The cleared flag is set by an explicit clearing only.  If
    (blockId, [apiKey]) is marked after [setValue] and was not before, then the
    field is an API-key field of a block of known type, the store value of the
    render was non-empty, the new value is blank, and the call passed the
    deep-equality guard. *)
Theorem X7_cleared_only_by_clearing (C : Collaborators) (p : Props) (r : Render)
    (nv : JsValue) (h : Refs) (w : Stores) :
  SubBlockStore.isParamCleared (subBlockStore w) (blockId p) "apiKey" = false ->
  SubBlockStore.isParamCleared (subBlockStore (snd (setValue p r nv (h, w))))
    (blockId p) "apiKey" = true ->
  isApiKey r = true /\
  knownType (blockType r) = true /\
  hasValue (storeValue r) = true /\
  isBlank nv = true /\
  isEqual (valueRef h) nv = false.
Proof.
  intros Hbefore Hafter.
  destruct (setValue_store_cases p r nv h w) as [[_ Hst]|[Hne [copy Hst]]];
    rewrite Hst in Hafter; [congruence|].
  unfold SubBlockStore.isParamCleared in Hbefore, Hafter.
  apply bool_decide_eq_false in Hbefore. apply bool_decide_eq_true in Hafter.
  cbn [SubBlockStore.setValue SubBlockStore.clearedParams] in Hafter.
  destruct (isApiKey r) eqn:Hkey; [|contradiction].
  destruct (knownType (blockType r)) eqn:Htype; [|contradiction].
  cbn [andb] in Hafter.
  destruct (storeApiKeyValue_cases (blockId p) (blockType r) (modelValue r) nv
              (storeValue r) (subBlockStore w))
    as [Hs|[(Hsv & Hnv & Hs)|(_ & _ & [Hs|(scope & _ & Hs)])]];
    rewrite Hs in Hafter.
  - contradiction.
  - now repeat split.
  - cbn in Hafter. apply elem_of_difference in Hafter as [Hin _]. contradiction.
  - cbn in Hafter. apply elem_of_difference in Hafter as [Hin _]. contradiction.
Qed.

(** Clearing the key of the Snowflake block sets the flag, and the theorem
    gives back the conditions of the clearing branch. *)
Lemma X7_witness :
  let p := Sample.apiKeyOf "s1" in
  let w := Sample.stores
             (SubBlockStore.setValue "s1" "apiKey" (VString "sk-1")
                Sample.emptySubBlockStore) true in
  let m := Sample.mounted p w in
  hasValue (storeValue (fst m)) = true /\ isBlank (VString "") = true.
Proof.
  intros p w m.
  destruct (X7_cleared_only_by_clearing Sample.collaborators p (fst m) (VString "")
              (fst (snd m)) (snd (snd m)) eq_refl eq_refl) as (_ & _ & Hsv & Hnv & _).
  now split.
Defined.

(** X8. No blank credential is ever stored.  If no stored parameter is blank
    before [setValue], none is after it, whatever the value, the field and the
    block; the effects store no parameter at all. *)
Theorem X8_no_blank_credentials (C : Collaborators) (p : Props) (r : Render)
    (nv : JsValue) (h : Refs) (w : Stores) :
  noBlankParams (subBlockStore w) ->
  noBlankParams (subBlockStore (snd (setValue p r nv (h, w)))) /\
  noBlankParams (subBlockStore (snd (mountEffects p r (h, w)))) /\
  forall changed2 changed3 changed4 : bool,
    noBlankParams (subBlockStore (snd (updateEffects p r changed2 changed3 changed4 (h, w)))).
Proof.
  intros Hinv. split; [|split].
  - destruct (setValue_store_cases p r nv h w) as [[_ ->]|[_ [copy ->]]]; [exact Hinv|].
    intros k v. cbn [SubBlockStore.setValue SubBlockStore.toolParams].
    destruct (isApiKey r && knownType (blockType r)); [|apply Hinv].
    destruct (storeApiKeyValue_cases (blockId p) (blockType r) (modelValue r) nv
                (storeValue r) (subBlockStore w))
      as [->|[(_ & _ & ->)|(_ & Hs & [->|(scope & _ & ->)])]]; try apply Hinv.
    cbn [SubBlockStore.setToolParam SubBlockStore.unmarkParamAsCleared
         SubBlockStore.toolParams].
    destruct (decide (k = (scope, "apiKey"))) as [->|Hk].
    + rewrite lookup_insert_eq. now intros [= <-].
    + rewrite lookup_insert_ne by congruence. apply Hinv.
  - destruct (mountEffects_writesOnlyField p r h w) as (_ & _ & _ & Hparams & _).
    intros k v. rewrite Hparams. apply Hinv.
  - intros c2 c3 c4.
    destruct (updateEffects_writesOnlyField p r h w c2 c3 c4) as (_ & _ & _ & Hparams & _).
    intros k v. rewrite Hparams. apply Hinv.
Qed.

(** A store with one key; entering a whitespace-only value stores nothing
    blank. *)
Lemma X8_witness :
  let p := Sample.apiKeyOf "s1" in
  let w := Sample.stores
             (SubBlockStore.setToolParam "snowflake" "apiKey" "sk-1"
                Sample.emptySubBlockStore) true in
  noBlankParams
    (subBlockStore (snd (setValue (H := Sample.collaborators) p (useSubBlockValue p w)
                           (VString "   ") (freshRefs, w)))).
Proof.
  intros p w.
  apply (X8_no_blank_credentials Sample.collaborators p (useSubBlockValue p w)
           (VString "   ") freshRefs w).
  intros k v. cbn.
  destruct (decide (k = ("snowflake", "apiKey"))) as [->|Hk].
  - rewrite lookup_insert_eq. intros [= <-]. discriminate.
  - rewrite lookup_insert_ne by congruence. rewrite lookup_empty. discriminate.
Defined.

(** X9. Nothing is stored for [ollama].  Unless the block type itself is the
    string [ollama], [setValue] leaves the parameter stored under
    ([ollama], [apiKey]) as it was, whatever the selected model. *)
Theorem X9_nothing_stored_for_ollama (C : Collaborators) (p : Props) (r : Render)
    (nv : JsValue) (h : Refs) (w : Stores) :
  blockType r <> Some "ollama" ->
  SubBlockStore.toolParams (subBlockStore (snd (setValue p r nv (h, w))))
    !! ("ollama", "apiKey") =
  SubBlockStore.toolParams (subBlockStore w) !! ("ollama", "apiKey").
Proof.
  intros Htype.
  destruct (setValue_store_cases p r nv h w) as [[_ ->]|[_ [copy ->]]]; [reflexivity|].
  cbn [SubBlockStore.setValue SubBlockStore.toolParams].
  destruct (isApiKey r && knownType (blockType r)); [|reflexivity].
  destruct (storeApiKeyValue_cases (blockId p) (blockType r) (modelValue r) nv
              (storeValue r) (subBlockStore w))
    as [->|[(_ & _ & ->)|(_ & _ & [->|(scope & Hscope & ->)])]]; try reflexivity.
  cbn [SubBlockStore.setToolParam SubBlockStore.unmarkParamAsCleared
       SubBlockStore.toolParams].
  apply lookup_insert_ne. intros [= ->].
  destruct Hscope as [Hp|Ht].
  - apply usableProvider_not_ollama in Hp as [_ Hp]. now apply Hp.
  - contradiction.
Qed.

(** An agent block on an [ollama] model: the entered key is not stored under
    [ollama]. *)
Lemma X9_witness :
  let p := Sample.apiKeyOf "a1" in
  let w := Sample.stores
             (SubBlockStore.setValue "a1" "model" (VString "llama3")
                Sample.emptySubBlockStore) true in
  SubBlockStore.toolParams
    (subBlockStore (snd (setValue (H := Sample.collaborators) p (useSubBlockValue p w)
                           (VString "sk-new") (freshRefs, w))))
    !! ("ollama", "apiKey") = None.
Proof.
  intros p w.
  rewrite (X9_nothing_stored_for_ollama Sample.collaborators p (useSubBlockValue p w));
    [reflexivity|discriminate].
Defined.

(** X10. Setting the same value twice is setting it once: the second call
    finds the cache deep-equal to the value and changes nothing, so there is
    no second write and no second workflow update. *)
Theorem X10_setValue_idempotent (C : Collaborators) (p : Props) (r : Render)
    (v : JsValue) (hw : Refs * Stores) :
  setValue p r v (setValue p r v hw) = setValue p r v hw.
Proof.
  destruct hw as [h w].
  destruct (isEqual (valueRef h) v) eqn:Heq.
  - now rewrite !setValue_equal by exact Heq.
  - pose proof (setValue_valueRef p r v h w Heq) as Hv.
    destruct (setValue p r v (h, w)) as [h' w']. cbn [fst] in Hv.
    apply setValue_equal. rewrite Hv. apply isEqual_refl.
Qed.

(** X11. The workflow update is sent at most once per call, and only by the
    setter: the count of updates grows by one when [triggerWorkflowUpdate] is
    set and the value is not deep-equal to the cached one, and stays as it is
    in every other case. *)
Theorem X11_update_count (C : Collaborators) (p : Props) (r : Render) (v : JsValue)
    (h : Refs) (w : Stores) :
  WorkflowStore.updates (workflowStore (snd (setValue p r v (h, w)))) =
  WorkflowStore.updates (workflowStore w) +
  (if triggerWorkflowUpdate p && negb (isEqual (valueRef h) v) then 1 else 0).
Proof.
  unfold setValue.
  destruct (isEqual (valueRef h) v).
  - rewrite andb_false_r. cbn. lia.
  - destruct (if strictEq v VNull then _ else _) as [copy next].
    destruct (isApiKey r && knownType (blockType r)), (triggerWorkflowUpdate p); cbn; lia.
Qed.

(** X12. A value that is not an array or object is written as it is.  When
    the call passes the deep-equality guard, the field then holds exactly the
    value given ([null], [undefined], a boolean, a number or a string), on an
    API-key field as on any other, whatever the credential step did. *)
Theorem X12_primitive_is_written (C : Collaborators) (p : Props) (r : Render)
    (v : JsValue) (h : Refs) (w : Stores) :
  identity v = None ->
  isEqual (valueRef h) v = false ->
  let hw' := setValue p r v (h, w) in
  SubBlockStore.getValue (subBlockStore (snd hw')) (blockId p) (subBlockId p) = v /\
  currentValue (fst hw') = v /\
  nextRef (snd hw') = nextRef w.
Proof.
  intros Hprim Hne hw'. subst hw'. split; [|split].
  - rewrite setValue_stored by exact Hne.
    destruct v as [| |b|[|neg|z]|s|a xs|a ps]; try discriminate; reflexivity.
  - now apply setValue_valueRef.
  - unfold setValue. rewrite Hne.
    assert (Hcopy : (if strictEq v VNull then (VNull, nextRef w)
                     else if typeofObject v then jsonRoundTrip v (nextRef w)
                     else (v, nextRef w)) = (v, nextRef w)).
    { destruct v as [| |b|[|neg|z]|s|a xs|a ps]; try discriminate; reflexivity. }
    rewrite Hcopy.
    now destruct (isApiKey r && knownType (blockType r)), (triggerWorkflowUpdate p).
Qed.

(** Clearing the key of an agent block on an [ollama] model: the field holds
    the empty string afterwards. *)
Lemma X12_witness :
  let p := Sample.apiKeyOf "a1" in
  let sub := SubBlockStore.setValue "a1" "apiKey" (VString "sk-old")
               (SubBlockStore.setValue "a1" "model" (VString "llama3")
                  Sample.emptySubBlockStore) in
  let m := Sample.mounted p (Sample.stores sub true) in
  SubBlockStore.getValue
    (subBlockStore (snd (setValue (H := Sample.collaborators) p (fst m) (VString "")
                           (fst (snd m), snd (snd m)))))
    "a1" "apiKey" = VString "".
Proof.
  intros p sub m.
  exact (proj1 (X12_primitive_is_written Sample.collaborators p (fst m) (VString "")
                  (fst (snd m)) (snd (snd m)) eq_refl eq_refl)).
Defined.

(** ** Auto-fill settles after one write *)

Section ConvergenceFacts.

Context `{Collaborators}.

Lemma setValue_setValue (b f : string) (v : JsValue) (st : SubBlockStore.State) :
  SubBlockStore.setValue b f v (SubBlockStore.setValue b f v st) =
  SubBlockStore.setValue b f v st.
Proof. unfold SubBlockStore.setValue. cbn. now rewrite insert_insert_eq. Qed.

Lemma getValue_setValue_ne (b f b' f' : string) (v : JsValue) (st : SubBlockStore.State) :
  (b, f) <> (b', f') ->
  SubBlockStore.getValue (SubBlockStore.setValue b f v st) b' f' =
  SubBlockStore.getValue st b' f'.
Proof.
  intros Hne. unfold SubBlockStore.getValue, SubBlockStore.setValue. cbn.
  now rewrite lookup_insert_ne.
Qed.

Lemma resolve_setValue (b f : string) (v : JsValue) (st : SubBlockStore.State)
    (t k i : string) :
  resolverIgnoresValues H ->
  resolveToolParamValue (SubBlockStore.setValue b f v st) t k i =
  resolveToolParamValue st t k i.
Proof. intros Hign. now apply Hign. Qed.

Lemma handleProviderBasedApiKey_settles (b f : string) (m sv sv' : JsValue)
    (st : SubBlockStore.State) :
  resolverIgnoresValues H ->
  let st1 := handleProviderBasedApiKey b f m sv st in
  handleProviderBasedApiKey b f m sv' st1 = st1.
Proof.
  intros Hign st1. subst st1. unfold handleProviderBasedApiKey.
  destruct (negb (truthy m)); [reflexivity|].
  destruct (usableProvider m) as [provider|]; [|reflexivity].
  destruct (nonEmpty (resolveToolParamValue st provider "apiKey" b)) eqn:Hsaved;
    rewrite resolve_setValue, Hsaved by exact Hign; apply setValue_setValue.
Qed.

Lemma handleStandardBlockApiKey_settles (b f : string) (bt : option string)
    (st : SubBlockStore.State) :
  resolverIgnoresValues H ->
  let st1 := handleStandardBlockApiKey b f bt (SubBlockStore.getValue st b f) st in
  handleStandardBlockApiKey b f bt (SubBlockStore.getValue st1 b f) st1 = st1.
Proof.
  intros Hign st1. subst st1.
  destruct bt as [t|]; [|reflexivity].
  destruct (String.eqb t "") eqn:Ht; [cbn; now rewrite Ht|].
  set (sv := SubBlockStore.getValue st b f).
  assert (Hwritten : forall key, key <> "" ->
            resolveToolParamValue st t "apiKey" b = Some key ->
            handleStandardBlockApiKey b f (Some t)
              (SubBlockStore.getValue (SubBlockStore.setValue b f (VString key) st) b f)
              (SubBlockStore.setValue b f (VString key) st) =
            SubBlockStore.setValue b f (VString key) st).
  { intros key Hkey Hres. rewrite getValue_setValue.
    rewrite handleStandardBlockApiKey_held by auto using hasValue_VString.
    rewrite resolve_setValue, Hres by exact Hign.
    cbn [strictEq]. rewrite String.eqb_refl, orb_true_r.
    now destruct (isEnvVarReference (VString key)). }
  destruct (hasValue sv) eqn:Hsv.
  - rewrite !(handleStandardBlockApiKey_held b f t sv st Ht Hsv).
    destruct (isEnvVarReference sv) eqn:Href.
    + destruct (resolveToolParamValue st t "apiKey" b) as [key|] eqn:Hres.
      * destruct (String.eqb_spec key "") as [->|Hkey].
        -- cbn [orb]. fold sv.
           rewrite (handleStandardBlockApiKey_held b f t sv st Ht Hsv), Href, Hres.
           reflexivity.
        -- cbn [orb]. destruct (strictEq (VString key) sv) eqn:Hsame.
           ++ fold sv.
              rewrite (handleStandardBlockApiKey_held b f t sv st Ht Hsv), Href, Hres, Hsame.
              now rewrite orb_true_r.
           ++ now apply Hwritten.
      * fold sv.
        now rewrite (handleStandardBlockApiKey_held b f t sv st Ht Hsv), Href, Hres.
    + fold sv. now rewrite (handleStandardBlockApiKey_held b f t sv st Ht Hsv), Href.
  - rewrite !(handleStandardBlockApiKey_empty b f t sv st Ht Hsv).
    destruct (resolveToolParamValue st t "apiKey" b) as [key|] eqn:Hres.
    + destruct (String.eqb_spec key "") as [->|Hkey].
      * fold sv. now rewrite (handleStandardBlockApiKey_empty b f t sv st Ht Hsv), Hres.
      * now apply Hwritten.
    + fold sv. now rewrite (handleStandardBlockApiKey_empty b f t sv st Ht Hsv), Hres.
Qed.

Lemma autoFillEffect_off (p : Props) (r : Render) (w : Stores) :
  isAutoFillEnvVarsEnabled r = false \/ isApiKey r = false ->
  autoFillEffect p r w = w.
Proof.
  intros [Hoff|Hoff]; unfold autoFillEffect; rewrite Hoff; cbn [negb]; [reflexivity|].
  now destruct (negb (isAutoFillEnvVarsEnabled r)).
Qed.

End ConvergenceFacts.

(** X13. Auto-fill settles.  With a resolver that reads only the stored
    parameters and the cleared flags, the render that follows a run of the
    auto-fill effect finds nothing left to write: running the effect again on
    the stores it produced leaves them as they are.  The write of the effect
    changes the store value it depends on, so it is re-run, and the re-run is
    the end of it. *)
Theorem X13_auto_fill_settles (C : Collaborators) (p : Props) (w : Stores) :
  resolverIgnoresValues C ->
  let w1 := autoFillEffect p (useSubBlockValue p w) w in
  autoFillEffect p (useSubBlockValue p w1) w1 = w1.
Proof.
  intros Hign w1. subst w1.
  set (r := useSubBlockValue p w).
  destruct (isAutoFillEnvVarsEnabled r) eqn:Hauto;
    [|rewrite (autoFillEffect_off p r w) by auto; apply autoFillEffect_off; auto].
  destruct (isApiKey r) eqn:Hkey;
    [|rewrite (autoFillEffect_off p r w) by auto; apply autoFillEffect_off; auto].
  assert (Hmodel : subBlockId p <> "model").
  { intros Hsub. subst r. cbn [isApiKey useSubBlockValue] in Hkey.
    rewrite Hsub in Hkey. discriminate. }
  unfold autoFillEffect at 2. rewrite Hauto, Hkey. cbn [negb].
  set (G := if isProviderBasedBlock r
            then handleProviderBasedApiKey (blockId p) (subBlockId p) (modelValue r)
                   (storeValue r)
            else handleStandardBlockApiKey (blockId p) (subBlockId p) (blockType r)
                   (storeValue r)).
  assert (Hw1 : (if isProviderBasedBlock r
                 then withSubBlockStore
                        (handleProviderBasedApiKey (blockId p) (subBlockId p) (modelValue r)
                           (storeValue r)) w
                 else withSubBlockStore
                        (handleStandardBlockApiKey (blockId p) (subBlockId p) (blockType r)
                           (storeValue r)) w) = withSubBlockStore G w).
  { subst G. now destruct (isProviderBasedBlock r). }
  rewrite Hw1. clear Hw1.
  assert (Hcases : G (subBlockStore w) = subBlockStore w \/
                   exists v, G (subBlockStore w) =
                             SubBlockStore.setValue (blockId p) (subBlockId p) v
                               (subBlockStore w)).
  { subst G. destruct (isProviderBasedBlock r);
      [apply handleProviderBasedApiKey_cases|apply handleStandardBlockApiKey_cases]. }
  assert (HmodelValue :
            SubBlockStore.getValue (G (subBlockStore w)) (blockId p) "model" =
            SubBlockStore.getValue (subBlockStore w) (blockId p) "model").
  { destruct Hcases as [->|[v ->]]; [reflexivity|].
    apply getValue_setValue_ne. congruence. }
  unfold autoFillEffect.
  cbn [useSubBlockValue isAutoFillEnvVarsEnabled isApiKey isProviderBasedBlock blockType
       modelValue storeValue withSubBlockStore workflowStore subBlockStore generalStore].
  rewrite HmodelValue.
  change (GeneralStore.isAutoFillEnvVarsEnabled (generalStore w))
    with (isAutoFillEnvVarsEnabled r).
  change (String.eqb (subBlockId p) "apiKey" ||
          Str.includes (Str.toLowerCase (subBlockId p)) "apikey") with (isApiKey r).
  rewrite Hauto, Hkey. cbn [negb].
  change (providerBased (selectBlockType (blockId p) (workflowStore w)))
    with (isProviderBasedBlock r).
  change (if isProviderBasedBlock r
          then if String.eqb (blockId p) "" then VNull
               else SubBlockStore.getValue (subBlockStore w) (blockId p) "model"
          else VNull) with (modelValue r).
  change (selectBlockType (blockId p) (workflowStore w)) with (blockType r).
  subst G. destruct (isProviderBasedBlock r) eqn:Hpb;
    apply withSubBlockStore_same; cbn [withSubBlockStore subBlockStore].
  - now apply handleProviderBasedApiKey_settles.
  - change (storeValue r)
      with (SubBlockStore.getValue (subBlockStore w) (blockId p) (subBlockId p)).
    now apply handleStandardBlockApiKey_settles.
Qed.

(** The sample resolver reads parameters and flags only; an empty key field of
    the Snowflake block is filled once, and the second run changes nothing. *)
Lemma X13_witness :
  let p := Sample.apiKeyOf "s1" in
  let w := Sample.stores
             (SubBlockStore.setToolParam "snowflake" "apiKey" "sf-key"
                Sample.emptySubBlockStore) true in
  let w1 := autoFillEffect (H := Sample.collaborators) p (useSubBlockValue p w) w in
  SubBlockStore.getValue (subBlockStore w1) "s1" "apiKey" = VString "sf-key" /\
  autoFillEffect (H := Sample.collaborators) p (useSubBlockValue p w1) w1 = w1.
Proof.
  intros p w w1. split; [reflexivity|].
  apply (X13_auto_fill_settles Sample.collaborators p w).
  intros st st' Hparams Hflags toolId paramId instanceId.
  cbn. unfold Sample.resolve, SubBlockStore.isParamCleared. now rewrite Hparams, Hflags.
Defined.

(** * Further properties of the toolbar *)

Section QueryFacts.

Import Str.

Lemma app_assoc_string (a b c : string) : (a +:+ b) +:+ c = a +:+ b +:+ c.
Proof.
  induction a as [|x a IH]; [reflexivity|].
  rewrite !app_String. now rewrite IH.
Qed.

Lemma includes_infix (s x y z : string) :
  includes s (x +:+ y +:+ z) = true -> includes s y = true.
Proof.
  intros (pre & post & ->)%includes_inv.
  replace (pre +:+ (x +:+ y +:+ z) +:+ post) with ((pre +:+ x) +:+ y +:+ (z +:+ post)).
  - apply includes_app.
  - now rewrite !app_assoc_string.
Qed.

Lemma allWhiteSpace_app (a b : string) :
  allWhiteSpace (a +:+ b) = allWhiteSpace a && allWhiteSpace b.
Proof.
  induction a as [|c a IH]; [reflexivity|].
  rewrite app_String. cbn [allWhiteSpace]. now rewrite IH, andb_assoc.
Qed.

Lemma trimEnd_empty (s : string) : trimEnd s = "" -> allWhiteSpace s = true.
Proof.
  induction s as [|c s IH]; [reflexivity|]. cbn [trimEnd allWhiteSpace].
  destruct (trimEnd s) as [|d t]; [|discriminate].
  destruct (isWhiteSpace c); [|discriminate]. intros _. now apply IH.
Qed.

Lemma trimStart_whiteSpace (s : string) :
  allWhiteSpace (trimStart s) = true -> allWhiteSpace s = true.
Proof.
  induction s as [|c s IH]; [reflexivity|]. cbn [trimStart allWhiteSpace].
  destruct (isWhiteSpace c) eqn:Hc; [exact IH|].
  cbn [allWhiteSpace]. now rewrite Hc.
Qed.

(** The test [!searchQuery.trim()] asks whether the query is whitespace
    only. *)
Lemma trim_blank (s : string) : String.eqb (trim s) "" = allWhiteSpace s.
Proof.
  destruct (allWhiteSpace s) eqn:Hs.
  - now rewrite trim_allWhiteSpace.
  - apply String.eqb_neq. intros Ht.
    apply trimEnd_empty, trimStart_whiteSpace in Ht. congruence.
Qed.

Lemma isWhiteSpace_lowerUnit (c : ascii) : isWhiteSpace (lowerUnit c) = isWhiteSpace c.
Proof. destruct c as [[] [] [] [] [] [] [] []]; reflexivity. Qed.

Lemma allWhiteSpace_toLowerCase (s : string) :
  allWhiteSpace (toLowerCase s) = allWhiteSpace s.
Proof.
  induction s as [|c s IH]; [reflexivity|].
  cbn [toLowerCase allWhiteSpace]. now rewrite isWhiteSpace_lowerUnit, IH.
Qed.

End QueryFacts.

(** X14. Typing more narrows the search.  If the query [q'] is not blank and
    occurs inside the query [q], every block the toolbar lists for [q] is
    listed for [q'] too. *)
Theorem X14_longer_query_narrows (R : ToolbarUI.BlockRegistry) (st : ToolbarUI.State)
    (a q' b : string) (block : ToolbarUI.BlockConfig) :
  Str.trim q' <> "" ->
  In block (ToolbarUI.blocks (ToolbarUI.setSearchQuery (a +:+ q' +:+ b) st)) ->
  In block (ToolbarUI.blocks (ToolbarUI.setSearchQuery q' st)).
Proof.
  intros Hq' Hin.
  assert (Hq : Str.trim (a +:+ q' +:+ b) <> "").
  { apply String.eqb_neq. rewrite trim_blank, !allWhiteSpace_app.
    apply String.eqb_neq in Hq'. rewrite trim_blank in Hq'. rewrite Hq'.
    apply andb_false_r. }
  rewrite blocks_search in Hin |- * by assumption.
  cbn [ToolbarUI.searchQuery ToolbarUI.setSearchQuery] in Hin |- *.
  apply filter_In in Hin as [Hall Hmatch]. apply filter_In. split; [exact Hall|].
  unfold ToolbarUI.matchesQuery in Hmatch |- *.
  rewrite !toLowerCase_app in Hmatch.
  apply orb_true_iff in Hmatch as [Ht|Hd]; apply orb_true_iff;
    [left|right]; eapply includes_infix; eassumption.
Qed.

(** On the sample registry [snowflake q] finds the Snowflake block, and so
    does [flake]. *)
Lemma X14_witness :
  In Sample.snowflake
    (ToolbarUI.blocks (H := Sample.registry)
       (ToolbarUI.setSearchQuery "flake" ToolbarUI.initialState)).
Proof.
  apply (X14_longer_query_narrows Sample.registry ToolbarUI.initialState "snow" "flake" " q").
  - discriminate.
  - left. reflexivity.
Defined.

(** X15. The search does not look at the case of the query: two queries with
    the same lower-case form give the same list, in every state of the
    toolbar. *)
Theorem X15_query_case_is_ignored (R : ToolbarUI.BlockRegistry) (st : ToolbarUI.State)
    (q q' : string) :
  Str.toLowerCase q = Str.toLowerCase q' ->
  ToolbarUI.blocks (ToolbarUI.setSearchQuery q st) =
  ToolbarUI.blocks (ToolbarUI.setSearchQuery q' st).
Proof.
  intros Hlower. unfold ToolbarUI.blocks.
  cbn [ToolbarUI.searchQuery ToolbarUI.activeTab ToolbarUI.setSearchQuery].
  rewrite !trim_blank, Hlower.
  rewrite <- (allWhiteSpace_toLowerCase q), <- (allWhiteSpace_toLowerCase q'), Hlower.
  reflexivity.
Qed.

(** [SnowFlake] and [snowflake] list the same blocks. *)
Lemma X15_witness :
  ToolbarUI.blocks (H := Sample.registry)
    (ToolbarUI.setSearchQuery "SnowFlake" ToolbarUI.initialState) =
  ToolbarUI.blocks (H := Sample.registry)
    (ToolbarUI.setSearchQuery "snowflake" ToolbarUI.initialState).
Proof. apply (X15_query_case_is_ignored Sample.registry). reflexivity. Defined.

(** X16. A query of whitespace only that is not empty hides the tabs and
    still lists the blocks of the active tab: the list is that of a category
    the user can no longer switch. *)
Theorem X16_blank_query_hides_tabs (R : ToolbarUI.BlockRegistry) (st : ToolbarUI.State) :
  ToolbarUI.whitespaceOnly (ToolbarUI.searchQuery st) ->
  ToolbarUI.searchQuery st <> "" ->
  ToolbarUI.showsTabs st = false /\
  ToolbarUI.blocks st = ToolbarUI.getBlocksByCategory (ToolbarUI.activeTab st).
Proof.
  intros Hws Hne. split.
  - unfold ToolbarUI.showsTabs. now apply String.eqb_neq.
  - apply blocks_category, trim_allWhiteSpace, allWhiteSpace_In, Hws.
Qed.

(** A single space on the basic tab. *)
Lemma X16_witness :
  let st := ToolbarUI.setSearchQuery " " ToolbarUI.initialState in
  ToolbarUI.showsTabs st = false /\
  ToolbarUI.blocks (H := Sample.registry) st = [Sample.agent].
Proof.
  intros st.
  assert (Hws : ToolbarUI.whitespaceOnly (ToolbarUI.searchQuery st)).
  { intros c [<-|[]]. reflexivity. }
  assert (Hne : ToolbarUI.searchQuery st <> "") by discriminate.
  exact (X16_blank_query_hides_tabs Sample.registry st Hws Hne).
Defined.


(** * Credentials across blocks *)

Section ReuseFacts.

Context `{Collaborators}.

Lemma trim_nonempty (s : string) : Str.trim s <> "" -> s <> "".
Proof. intros Hs ->. now apply Hs. Qed.

(** The stored parameters after a call that stores the value under [scope]. *)
Lemma setValue_stores_under (p : Props) (r : Render) (t scope : string) (nv : JsValue)
    (h : Refs) (w : Stores) :
  isApiKey r = true ->
  blockType r = Some t -> t <> "" ->
  truthy nv = true -> Str.trim (toString nv) <> "" ->
  isEqual (valueRef h) nv = false ->
  (providerBased (Some t) && truthy (modelValue r) = true /\
   usableProvider (modelValue r) = Some scope) \/
  (providerBased (Some t) && truthy (modelValue r) = false /\ scope = t) ->
  SubBlockStore.toolParams (subBlockStore (snd (setValue p r nv (h, w))))
    !! (scope, "apiKey") = Some (toString nv).
Proof.
  intros Hkey Htype Ht%String.eqb_neq Hnv Hs Hne Hscope.
  destruct (setValue_subBlockStore p r nv h w Hne) as [copy ->].
  rewrite Hkey, Htype. cbn [knownType andb]. rewrite Ht. cbn [negb].
  rewrite storeApiKeyValue_storing by assumption. cbv zeta.
  destruct Hscope as [[-> ->]|[-> ->]]; cbn; apply lookup_insert_eq.
Qed.

End ReuseFacts.






(** * A cleared field stays cleared *)

Section ClearedFacts.

Context `{Collaborators}.
Variable p : Props.
Variable nv : JsValue.
Hypothesis Hwithheld : resolverHonoursCleared H (blockId p).

Lemma keptCleared_empty (st : SubBlockStore.State) :
  keptCleared p nv st ->
  keptCleared p nv (SubBlockStore.setValue (blockId p) (subBlockId p) (VString "") st).
Proof. intros [Hc _]. split; [exact Hc|]. right. apply getValue_setValue. Qed.

Lemma handleProviderBasedApiKey_keptCleared (m sv : JsValue) (st : SubBlockStore.State) :
  keptCleared p nv st ->
  keptCleared p nv (handleProviderBasedApiKey (blockId p) (subBlockId p) m sv st).
Proof.
  intros Hk. unfold handleProviderBasedApiKey.
  destruct (negb (truthy m)); [exact Hk|].
  destruct (usableProvider m) as [provider|]; [|exact Hk].
  rewrite (Hwithheld st provider (proj1 Hk)). cbn [nonEmpty].
  now apply keptCleared_empty.
Qed.

Lemma handleStandardBlockApiKey_keptCleared (bt : option string) (sv : JsValue)
    (st : SubBlockStore.State) :
  keptCleared p nv st ->
  handleStandardBlockApiKey (blockId p) (subBlockId p) bt sv st = st.
Proof.
  intros [Hc _]. destruct bt as [t|]; [|reflexivity].
  destruct (String.eqb t "") eqn:Ht; [cbn; now rewrite Ht|].
  destruct (hasValue sv) eqn:Hsv.
  - rewrite handleStandardBlockApiKey_held, (Hwithheld st t Hc) by assumption.
    now destruct (isEnvVarReference sv).
  - now rewrite handleStandardBlockApiKey_empty, (Hwithheld st t Hc) by assumption.
Qed.

Lemma autoFillEffect_keptCleared (r : Render) (w : Stores) :
  keptCleared p nv (subBlockStore w) -> keptCleared p nv (subBlockStore (autoFillEffect p r w)).
Proof.
  intros Hk. unfold autoFillEffect.
  destruct (negb (isAutoFillEnvVarsEnabled r)); [exact Hk|].
  destruct (negb (isApiKey r)); [exact Hk|].
  destruct (isProviderBasedBlock r); cbn [withSubBlockStore subBlockStore].
  - now apply handleProviderBasedApiKey_keptCleared.
  - now rewrite handleStandardBlockApiKey_keptCleared.
Qed.

Lemma modelChangeEffect_keptCleared (r : Render) (h : Refs) (w : Stores) :
  keptCleared p nv (subBlockStore w) ->
  keptCleared p nv (subBlockStore (snd (modelChangeEffect p r (h, w)))).
Proof.
  intros Hk. unfold modelChangeEffect.
  destruct (negb (isApiKey r) || negb (isProviderBasedBlock r)); [exact Hk|].
  destruct (negb (strictEq (modelValue r) (prevModelRef h))); [|exact Hk].
  destruct (truthy (modelValue r)); [|exact Hk].
  destruct (usableProvider (modelValue r)) as [provider|]; [|exact Hk].
  rewrite (Hwithheld (subBlockStore w) provider (proj1 Hk)).
  cbn [nonEmpty andb snd withSubBlockStore subBlockStore].
  now apply keptCleared_empty.
Qed.

Lemma updateEffects_keptCleared (r : Render) (c2 c3 c4 : bool) (h : Refs) (w : Stores) :
  keptCleared p nv (subBlockStore w) ->
  keptCleared p nv (subBlockStore (snd (updateEffects p r c2 c3 c4 (h, w)))).
Proof.
  intros Hk. unfold updateEffects.
  assert (H2 : keptCleared p nv (subBlockStore (if c2 then autoFillEffect p r w else w))).
  { destruct c2; [now apply autoFillEffect_keptCleared|exact Hk]. }
  destruct c3; [|exact H2].
  pose proof (modelChangeEffect_keptCleared r h _ H2) as Hm.
  now destruct (modelChangeEffect p r _).
Qed.

Lemma setValue_keptCleared (r : Render) (h : Refs) (w : Stores) :
  isApiKey r = true -> knownType (blockType r) = true ->
  hasValue (storeValue r) = true -> blankInput nv ->
  isEqual (valueRef h) nv = false ->
  keptCleared p nv (subBlockStore (snd (setValue p r nv (h, w)))).
Proof.
  intros Hkey Htype Hsv Hblank Hne. split.
  - destruct (setValue_subBlockStore p r nv h w Hne) as [copy ->].
    rewrite Hkey, Htype. cbn [andb].
    rewrite storeApiKeyValue_clearing by auto using isBlank_blankInput.
    apply isParamCleared_mark.
  - left. rewrite setValue_stored by exact Hne.
    destruct Hblank as [->|(s & -> & _)]; reflexivity.
Qed.

End ClearedFacts.


